(** * CDropdown: placement resolution and the visibility controller

    A shallow embedding of the dropdown component of the library
    (components/dropdown/CDropdown.tsx): the pure placement resolver
    [getPlacement], and the component function [CDropdown] with its two
    effects and its two global event handlers, run by a small model of the
    host (renders, effects with dependency lists, the window's listener
    list, pending timeouts). *)

From Stdlib Require Import String ZArith List Bool Arith Lia.
Import ListNotations.

(** ** Data model *)

(** The declaration of [Placements] (../../types) is not among the sources;
    the constructors are the values that the [@type] annotation of the
    [placement] prop of [CDropdownProps] lists, in its order. The
    declaration may have further members; [getPlacement] assigns none of
    them and would only pass them through, as it does [p_auto]. *)
Inductive Placements : Type :=
| p_auto
| p_top_end
| p_top
| p_top_start
| p_bottom_end
| p_bottom
| p_bottom_start
| p_right_start
| p_right
| p_right_end
| p_left_start
| p_left
| p_left_end.

(** The string each constructor stands for in the source. *)
Definition placement_literal (p : Placements) : string :=
  match p with
  | p_auto => "auto"
  | p_top_end => "top-end"
  | p_top => "top"
  | p_top_start => "top-start"
  | p_bottom_end => "bottom-end"
  | p_bottom => "bottom"
  | p_bottom_start => "bottom-start"
  | p_right_start => "right-start"
  | p_right => "right"
  | p_right_end => "right-end"
  | p_left_start => "left-start"
  | p_left => "left"
  | p_left_end => "left-end"
  end.

(** The placements that the annotation documents. *)
Definition documented_placements : list Placements :=
  [p_auto; p_top_end; p_top; p_top_start; p_bottom_end; p_bottom;
   p_bottom_start; p_right_start; p_right; p_right_end; p_left_start;
   p_left; p_left_end].

(** [type Directions = 'start' | 'end'] *)
Inductive Directions : Type := dir_start | dir_end.

(** [type Breakpoints = { xs: Directions } | { sm: Directions } | ...] *)
Inductive Breakpoints : Type :=
| xs (d : Directions)
| sm (d : Directions)
| md (d : Directions)
| lg (d : Directions)
| xl (d : Directions)
| xxl (d : Directions).

(** [type Alignments = Directions | Breakpoints]; the first constructor is a
    plain string, the second an object. *)
Inductive Alignments : Type :=
| align (d : Directions)
| responsive (b : Breakpoints).

(** [direction?: 'center' | 'dropup' | 'dropup-center' | 'dropend' |
    'dropstart']; an absent prop is [None]. *)
Inductive Direction : Type :=
| center
| dropup
| dropup_center
| dropend
| dropstart.

(** [autoClose?: 'inside' | 'outside' | boolean] *)
Inductive AutoClose : Type :=
| ac_bool (b : bool)
| ac_inside
| ac_outside.

(** Strict equality [===] of a prop with a string literal. *)
Definition direction_is (direction : option Direction) (lit : Direction) : bool :=
  match direction, lit with
  | Some center, center
  | Some dropup, dropup
  | Some dropup_center, dropup_center
  | Some dropend, dropend
  | Some dropstart, dropstart => true
  | _, _ => false
  end.

Definition alignment_is (alignment : option Alignments) (lit : Directions) : bool :=
  match alignment, lit with
  | Some (align dir_start), dir_start
  | Some (align dir_end), dir_end => true
  | _, _ => false
  end.

(** [typeof alignment === 'object'] *)
Definition is_object (alignment : option Alignments) : bool :=
  match alignment with
  | Some (responsive _) => true
  | _ => false
  end.

(** ** The placement resolver *)

(** [getPlacement]: one assignment to [_placement] per [if] of the source,
    in the source's order. *)
Definition getPlacement (placement : Placements) (direction : option Direction)
    (alignment : option Alignments) (isRTL : bool) : Placements :=
  let _placement := placement in
  let _placement :=
    if direction_is direction dropup
    then (if isRTL then p_top_end else p_top_start) else _placement in
  let _placement :=
    if direction_is direction dropup_center
    then p_top else _placement in
  let _placement :=
    if direction_is direction dropend
    then (if isRTL then p_left_start else p_right_start) else _placement in
  let _placement :=
    if direction_is direction dropstart
    then (if isRTL then p_right_start else p_left_start) else _placement in
  let _placement :=
    if alignment_is alignment dir_end
    then (if isRTL then p_bottom_start else p_bottom_end) else _placement in
  _placement.

(** The values the five rules of the resolver can assign. *)
Definition rule_placements : list Placements :=
  [p_top_end; p_top_start; p_top; p_left_start; p_right_start;
   p_bottom_start; p_bottom_end].

(** The directions that have a rule of their own. *)
Definition has_direction_rule (direction : option Direction) : bool :=
  direction_is direction dropup || direction_is direction dropup_center
  || direction_is direction dropend || direction_is direction dropstart.

(** ** Props *)

(** A DOM element, by identity. *)
Definition Element : Type := nat.

(** The props of [CDropdownProps] that the component function reads for
    visibility and placement. An optional prop that the caller left out is
    [None]; a callback is modelled by whether the caller supplied it, its
    invocations are recorded in the world's [calls]. *)
Record CDropdownProps : Type := {
  alignment_prop : option Alignments;
  autoClose_prop : option AutoClose;
  direction_prop : option Direction;
  offset_prop : option (Z * Z);
  onHide_prop : bool;
  onShow_prop : bool;
  placement_prop : option Placements;
  popper_prop : option bool;
  visible_prop : option bool;
}.

Definition or_default {A : Type} (d : A) (o : option A) : A :=
  match o with
  | Some a => a
  | None => d
  end.

(** The bindings of the destructured parameter, with its defaults:
    [autoClose = true], [offset = [0, 2]], [placement = 'bottom-start'],
    [popper = true], [visible = false]. *)
Definition alignment (props : CDropdownProps) : option Alignments :=
  alignment_prop props.
Definition autoClose (props : CDropdownProps) : AutoClose :=
  or_default (ac_bool true) (autoClose_prop props).
Definition direction (props : CDropdownProps) : option Direction :=
  direction_prop props.
Definition offset (props : CDropdownProps) : Z * Z :=
  or_default (0%Z, 2%Z) (offset_prop props).
Definition onHide (props : CDropdownProps) : bool := onHide_prop props.
Definition onShow (props : CDropdownProps) : bool := onShow_prop props.
Definition placement (props : CDropdownProps) : Placements :=
  or_default p_bottom_start (placement_prop props).
Definition visible (props : CDropdownProps) : bool :=
  or_default false (visible_prop props).

(** [popper] after [if (typeof alignment === 'object') { popper = false }]. *)
Definition popper (props : CDropdownProps) : bool :=
  if is_object (alignment props) then false
  else or_default true (popper_prop props).

(** The same props with another value of [visible]. *)
Definition with_visible (v : bool) (props : CDropdownProps) : CDropdownProps :=
  {| alignment_prop := alignment_prop props;
     autoClose_prop := autoClose_prop props;
     direction_prop := direction_prop props;
     offset_prop := offset_prop props;
     onHide_prop := onHide_prop props;
     onShow_prop := onShow_prop props;
     placement_prop := placement_prop props;
     popper_prop := popper_prop props;
     visible_prop := Some v |}.

(** ** Renders, listeners, the world *)

(** One call of the component function: the scope that the handlers, the
    effect and its cleanup created by that call close over. [render_id]
    numbers the calls, so it is the identity of those function objects. *)
Record Render : Type := {
  render_id : nat;
  render_props : CDropdownProps;
  _visible : bool;
  (** [isRTL(dropdownMenuRef.current)] as this render evaluated it *)
  render_isRTL : bool;
}.

Record PopperConfig : Type := {
  modifiers_offset : Z * Z;
  config_placement : Placements;
}.

Definition popperConfig (r : Render) : PopperConfig :=
  let props := render_props r in
  {| modifiers_offset := offset props;
     config_placement :=
       getPlacement (placement props) (direction props) (alignment props)
         (render_isRTL r) |}.

Inductive EventType : Type := mouseup | keyup.

Inductive Event : Type :=
| MouseUp (target : Element)
| KeyUp (key : string) (target : Element).

Definition event_type (event : Event) : EventType :=
  match event with
  | MouseUp _ => mouseup
  | KeyUp _ _ => keyup
  end.

Definition event_target (event : Event) : Element :=
  match event with
  | MouseUp target => target
  | KeyUp _ target => target
  end.

(** [event.key], undefined on a mouse event. *)
Definition event_key (event : Event) : option string :=
  match event with
  | MouseUp _ => None
  | KeyUp key _ => Some key
  end.

(** A function registered on [window]: a handler of one render of this
    component, or a function of other code. *)
Inductive Listener : Type :=
| handleMouseUp_of (r : Render)
| handleKeyup_of (r : Render)
| foreign (n : nat).

(** What the component asks of the positioning engine and of its caller. *)
Inductive Call : Type :=
| initPopper (reference : Element) (menu : Element) (config : PopperConfig)
| destroyPopper
| onShow_call
| onHide_call.

Record World : Type := {
  mounted : bool;
  (** number of renders so far *)
  renders : nat;
  (** the committed render *)
  current : Render;
  (** the [useState] cell behind [_visible] *)
  state_visible : bool;
  dropdownToggleRef : option Element;
  dropdownMenuRef : option Element;
  (** the render whose [[_visible]] effect ran last; its cleanup is pending *)
  effect_owner : Render;
  (** the listener list of [window], in registration order *)
  window_listeners : list (EventType * Listener);
  (** pending [setTimeout(() => setVisible(false), 1)] callbacks *)
  timeouts : nat;
  (** calls made so far, newest first *)
  calls : list Call;
}.

Definition EventType_eqb (a b : EventType) : bool :=
  match a, b with
  | mouseup, mouseup | keyup, keyup => true
  | _, _ => false
  end.

(** Identity of function objects: the handlers of two renders differ. *)
Definition same_function (f g : Listener) : bool :=
  match f, g with
  | handleMouseUp_of r, handleMouseUp_of r' => render_id r =? render_id r'
  | handleKeyup_of r, handleKeyup_of r' => render_id r =? render_id r'
  | foreign n, foreign m => n =? m
  | _, _ => false
  end.

Definition same_listener (a b : EventType * Listener) : bool :=
  EventType_eqb (fst a) (fst b) && same_function (snd a) (snd b).

Definition is_own (entry : EventType * Listener) : bool :=
  match snd entry with
  | foreign _ => false
  | _ => true
  end.

(** The listeners on [window] that are handlers of this component. *)
Definition own_listeners (w : World) : list (EventType * Listener) :=
  filter is_own (window_listeners w).

Definition foreign_listeners (w : World) : list (EventType * Listener) :=
  filter (fun entry => negb (is_own entry)) (window_listeners w).

Definition AutoClose_eqb (a b : AutoClose) : bool :=
  match a, b with
  | ac_bool x, ac_bool y => Bool.eqb x y
  | ac_inside, ac_inside | ac_outside, ac_outside => true
  | _, _ => false
  end.

Definition is_some {A : Type} (o : option A) : bool :=
  match o with
  | Some _ => true
  | None => false
  end.

(** *** Field updates *)

Definition set_mounted (b : bool) (w : World) : World :=
  {| mounted := b; renders := renders w; current := current w;
     state_visible := state_visible w;
     dropdownToggleRef := dropdownToggleRef w;
     dropdownMenuRef := dropdownMenuRef w;
     effect_owner := effect_owner w;
     window_listeners := window_listeners w;
     timeouts := timeouts w; calls := calls w |}.

Definition set_current (r : Render) (w : World) : World :=
  {| mounted := mounted w; renders := S (renders w); current := r;
     state_visible := state_visible w;
     dropdownToggleRef := dropdownToggleRef w;
     dropdownMenuRef := dropdownMenuRef w;
     effect_owner := effect_owner w;
     window_listeners := window_listeners w;
     timeouts := timeouts w; calls := calls w |}.

Definition set_state (v : bool) (w : World) : World :=
  {| mounted := mounted w; renders := renders w; current := current w;
     state_visible := v;
     dropdownToggleRef := dropdownToggleRef w;
     dropdownMenuRef := dropdownMenuRef w;
     effect_owner := effect_owner w;
     window_listeners := window_listeners w;
     timeouts := timeouts w; calls := calls w |}.

Definition set_refs (toggle menu : option Element) (w : World) : World :=
  {| mounted := mounted w; renders := renders w; current := current w;
     state_visible := state_visible w;
     dropdownToggleRef := toggle;
     dropdownMenuRef := menu;
     effect_owner := effect_owner w;
     window_listeners := window_listeners w;
     timeouts := timeouts w; calls := calls w |}.

Definition set_owner (r : Render) (w : World) : World :=
  {| mounted := mounted w; renders := renders w; current := current w;
     state_visible := state_visible w;
     dropdownToggleRef := dropdownToggleRef w;
     dropdownMenuRef := dropdownMenuRef w;
     effect_owner := r;
     window_listeners := window_listeners w;
     timeouts := timeouts w; calls := calls w |}.

Definition set_listeners (ls : list (EventType * Listener)) (w : World) : World :=
  {| mounted := mounted w; renders := renders w; current := current w;
     state_visible := state_visible w;
     dropdownToggleRef := dropdownToggleRef w;
     dropdownMenuRef := dropdownMenuRef w;
     effect_owner := effect_owner w;
     window_listeners := ls;
     timeouts := timeouts w; calls := calls w |}.

Definition set_timeouts (n : nat) (w : World) : World :=
  {| mounted := mounted w; renders := renders w; current := current w;
     state_visible := state_visible w;
     dropdownToggleRef := dropdownToggleRef w;
     dropdownMenuRef := dropdownMenuRef w;
     effect_owner := effect_owner w;
     window_listeners := window_listeners w;
     timeouts := n; calls := calls w |}.

Definition call (c : Call) (w : World) : World :=
  {| mounted := mounted w; renders := renders w; current := current w;
     state_visible := state_visible w;
     dropdownToggleRef := dropdownToggleRef w;
     dropdownMenuRef := dropdownMenuRef w;
     effect_owner := effect_owner w;
     window_listeners := window_listeners w;
     timeouts := timeouts w; calls := c :: calls w |}.

(** The calls made between [w] and a later world [w'], newest first. *)
Definition emitted (w w' : World) : list Call :=
  firstn (length (calls w') - length (calls w)) (calls w').

Definition Call_is_onShow (c : Call) : bool :=
  match c with onShow_call => true | _ => false end.
Definition Call_is_onHide (c : Call) : bool :=
  match c with onHide_call => true | _ => false end.
Definition Call_is_initPopper (c : Call) : bool :=
  match c with initPopper _ _ _ => true | _ => false end.

Definition count (f : Call -> bool) (l : list Call) : nat :=
  length (filter f l).

(** *** The window's listener list *)

(** [window.addEventListener(type, f)]: a listener already registered for
    the type is not registered again. *)
Definition addEventListener (type : EventType) (f : Listener) (w : World) : World :=
  if existsb (same_listener (type, f)) (window_listeners w) then w
  else set_listeners (window_listeners w ++ [(type, f)]) w.

(** [window.removeEventListener(type, f)] *)
Definition removeEventListener (type : EventType) (f : Listener) (w : World) : World :=
  set_listeners
    (filter (fun entry => negb (same_listener (type, f) entry)) (window_listeners w))
    w.

(** ** The component *)

Section Component.

(** [a.contains(b)] of the DOM: [contains a b]. *)
Variable contains : Element -> Element -> bool.

(** [isRTL] of ../../utils, whose body is not among the sources; it is
    applied to [dropdownMenuRef.current], [None] while the ref is null. *)
Variable isRTL : option Element -> bool.

(** The call of the component function on [props], reading the state cell
    and the menu ref of [w]. *)
Definition CDropdown (props : CDropdownProps) (w : World) : Render :=
  {| render_id := renders w;
     render_props := props;
     _visible := state_visible w;
     render_isRTL := isRTL (dropdownMenuRef w) |}.

(** The body of the effect with dependencies [[_visible]], as created by
    render [r]. *)
Definition effect_body (r : Render) (w : World) : World :=
  match _visible r, dropdownToggleRef w, dropdownMenuRef w with
  | true, Some toggle, Some menu =>
      let w :=
        if popper (render_props r)
        then call (initPopper toggle menu (popperConfig r)) w else w in
      let w := addEventListener mouseup (handleMouseUp_of r) w in
      let w := addEventListener keyup (handleKeyup_of r) w in
      if onShow (render_props r) then call onShow_call w else w
  | _, _, _ => w
  end.

(** The function that this effect returns, as created by render [r]. *)
Definition effect_cleanup (r : Render) (w : World) : World :=
  let w := if popper (render_props r) then call destroyPopper w else w in
  let w := removeEventListener mouseup (handleMouseUp_of r) w in
  let w := removeEventListener keyup (handleKeyup_of r) w in
  if onHide (render_props r) then call onHide_call w else w.

(** Render with [props] and commit: the [[_visible]] effect runs when
    [_visible] differs from the one of the previous render, the pending
    cleanup first. *)
Definition render_commit (props : CDropdownProps) (w : World) : World :=
  let prev := current w in
  let r := CDropdown props w in
  let w := set_current r w in
  if Bool.eqb (_visible r) (_visible prev) then w
  else set_owner r (effect_body r (effect_cleanup (effect_owner w) w)).

(** The state setter of [useState]: no render when the value is the one
    held, none on an unmounted component. *)
Definition setVisible (v : bool) (w : World) : World :=
  if negb (mounted w) then w
  else if Bool.eqb v (state_visible w) then w
  else render_commit (render_props (current w)) (set_state v w).

(** The parent renders the component with [props]. The effect with
    dependencies [[visible]], [setVisible(visible)], runs when [visible]
    differs from the one of the previous render. *)
Definition setProps (props : CDropdownProps) (w : World) : World :=
  if negb (mounted w) then w
  else
    let prev := current w in
    let w := render_commit props w in
    if Bool.eqb (visible props) (visible (render_props prev)) then w
    else setVisible (visible props) w.

(** The first call of the component function: the state cell starts at
    [visible], and the refs are still null. *)
Definition first_render (props : CDropdownProps) : Render :=
  {| render_id := 0; render_props := props; _visible := visible props;
     render_isRTL := isRTL None |}.

(** The world when the first render is committed: the refs hold the
    children's elements, if any, and no effect has run. *)
Definition committed (props : CDropdownProps) (toggle menu : option Element)
    (listeners : list (EventType * Listener)) : World :=
  {| mounted := true; renders := 1; current := first_render props;
     state_visible := visible props;
     dropdownToggleRef := toggle; dropdownMenuRef := menu;
     effect_owner := first_render props;
     window_listeners := listeners; timeouts := 0; calls := [] |}.

(** Mount: the first commit, then the [[visible]] effect and the
    [[_visible]] effect. *)
Definition mount (props : CDropdownProps) (toggle menu : option Element)
    (listeners : list (EventType * Listener)) : World :=
  let w := committed props toggle menu listeners in
  let w := setVisible (visible props) w in
  effect_body (first_render props) w.

(** Unmount: the pending cleanup runs and the refs are detached. *)
Definition unmount (w : World) : World :=
  if negb (mounted w) then w
  else set_mounted false (set_refs None None (effect_cleanup (effect_owner w) w)).

(** [handleKeyup] of render [r]. *)
Definition handleKeyup (r : Render) (event : Event) (w : World) : World :=
  if AutoClose_eqb (autoClose (render_props r)) (ac_bool false) then w
  else
    match event_key event with
    | Some key => if String.eqb key "Escape" then setVisible false w else w
    | None => w
    end.

(** [handleMouseUp] of render [r]. The refs are read when the event
    arrives; the dismissal is left to a timeout. *)
Definition handleMouseUp (r : Render) (event : Event) (w : World) : World :=
  match dropdownToggleRef w, dropdownMenuRef w with
  | Some toggle, Some menu =>
      if contains toggle (event_target event) then w
      else
        let autoClose := autoClose (render_props r) in
        if AutoClose_eqb autoClose (ac_bool true)
           || (AutoClose_eqb autoClose ac_inside
               && contains menu (event_target event))
           || (AutoClose_eqb autoClose ac_outside
               && negb (contains menu (event_target event)))
        then set_timeouts (S (timeouts w)) w
        else w
  | _, _ => w
  end.

Definition invoke (f : Listener) (event : Event) (w : World) : World :=
  match f with
  | handleMouseUp_of r => handleMouseUp r event w
  | handleKeyup_of r => handleKeyup r event w
  | foreign _ => w
  end.

(** An event on [window]: the listeners registered for its type run in
    registration order. *)
Definition dispatchEvent (event : Event) (w : World) : World :=
  fold_left
    (fun w entry =>
       if EventType_eqb (fst entry) (event_type event)
       then invoke (snd entry) event w else w)
    (window_listeners w) w.

(** The oldest pending timeout fires: [() => setVisible(false)]. *)
Definition fireTimeout (w : World) : World :=
  match timeouts w with
  | O => w
  | S n => setVisible false (set_timeouts n w)
  end.

(** What can happen to a mounted component. *)
Inductive Action : Type :=
| SetProps (props : CDropdownProps)
| SetVisible (v : bool)
| Dispatch (event : Event)
| FireTimeout
| SetRefs (toggle menu : option Element)
| Unmount.

Definition step (a : Action) (w : World) : World :=
  match a with
  | SetProps props => setProps props w
  | SetVisible v => setVisible v w
  | Dispatch event => dispatchEvent event w
  | FireTimeout => fireTimeout w
  | SetRefs toggle menu => if mounted w then set_refs toggle menu w else w
  | Unmount => unmount w
  end.

Definition run (acts : list Action) (w : World) : World :=
  fold_left (fun w a => step a w) acts w.

(** The worlds a component can be in: mounted beside listeners of other
    code, then any actions. *)
Inductive reachable : World -> Prop :=
| reachable_mount props toggle menu listeners :
    forallb (fun entry => negb (is_own entry)) listeners = true ->
    reachable (mount props toggle menu listeners)
| reachable_step a w :
    reachable w -> reachable (step a w).

End Component.

(** ** Predicates on worlds *)

(** The handlers of the render that owns the pending cleanup are the
    listeners this component has on [window]. *)
Definition attached (w : World) : Prop :=
  own_listeners w =
  [(mouseup, handleMouseUp_of (effect_owner w));
   (keyup, handleKeyup_of (effect_owner w))].

(** What holds between two actions: the committed render has read the
    state cell, and the component has listeners on [window] only while it
    is mounted and shown, and then those of the pending cleanup. *)
Definition consistent (w : World) : Prop :=
  _visible (current w) = state_visible w
  /\ (own_listeners w = []
      \/ (mounted w = true /\ state_visible w = true /\ attached w)).

(** The calls of one run of the cleanup and of the effect body. *)
Definition cleanup_calls (r : Render) : list Call :=
  (if onHide (render_props r) then [onHide_call] else [])
  ++ (if popper (render_props r) then [destroyPopper] else []).

Definition body_calls (r : Render) (w : World) : list Call :=
  match _visible r, dropdownToggleRef w, dropdownMenuRef w with
  | true, Some toggle, Some menu =>
      (if onShow (render_props r) then [onShow_call] else [])
      ++ (if popper (render_props r)
          then [initPopper toggle menu (popperConfig r)] else [])
  | _, _, _ => []
  end.

(** The engine has not been started, and the props of the committed render
    carry a responsive alignment. *)
Definition quiet (w : World) : Prop :=
  is_object (alignment (render_props (current w))) = true
  /\ count Call_is_initPopper (calls w) = 0.

(** An action that renders does so with a responsive alignment. *)
Definition props_keep_responsive (a : Action) : Prop :=
  match a with
  | SetProps props => is_object (alignment props) = true
  | _ => True
  end.

(** ** A small page

    Element 1 is a toggle that contains element 11, element 2 a menu that
    contains element 12; the document is left-to-right. *)
Definition page_contains (a b : Element) : bool :=
  (a =? b) || ((a =? 1) && (b =? 11)) || ((a =? 2) && (b =? 12)).

Definition page_isRTL (_ : option Element) : bool := false.

Definition plain_props : CDropdownProps :=
  {| alignment_prop := None; autoClose_prop := None;
     direction_prop := Some dropup; offset_prop := None;
     onHide_prop := true; onShow_prop := true;
     placement_prop := None; popper_prop := None;
     visible_prop := None |}.

Definition props_autoClose (a : AutoClose) : CDropdownProps :=
  {| alignment_prop := None; autoClose_prop := Some a;
     direction_prop := None; offset_prop := None;
     onHide_prop := true; onShow_prop := true;
     placement_prop := None; popper_prop := None;
     visible_prop := Some true |}.

Definition responsive_props : CDropdownProps :=
  {| alignment_prop := Some (responsive (lg dir_end)); autoClose_prop := None;
     direction_prop := None; offset_prop := None;
     onHide_prop := true; onShow_prop := true;
     placement_prop := None; popper_prop := Some true;
     visible_prop := None |}.

(** A dropdown with toggle and menu, mounted hidden beside a listener of
    other code, and the same dropdown mounted shown. *)
Definition hidden_world : World :=
  mount page_isRTL plain_props (Some 1) (Some 2) [(mouseup, foreign 7)].

Definition shown_world (a : AutoClose) : World :=
  mount page_isRTL (props_autoClose a) (Some 1) (Some 2) [(mouseup, foreign 7)].

(** [w'] differs from [w] at most in the listener list and the calls. *)
Definition same_component (w w' : World) : Prop :=
  mounted w' = mounted w
  /\ renders w' = renders w
  /\ current w' = current w
  /\ state_visible w' = state_visible w
  /\ dropdownToggleRef w' = dropdownToggleRef w
  /\ dropdownMenuRef w' = dropdownMenuRef w
  /\ effect_owner w' = effect_owner w
  /\ timeouts w' = timeouts w.

(** The hidden dropdown without a toggle. *)
Definition toggleless_world : World :=
  mount page_isRTL plain_props None (Some 2) [(mouseup, foreign 7)].


(** ** The positioning engine, read off the calls *)

(** Whether the engine is running after the calls [l] (newest first): the
    last of its two calls was [initPopper]. *)
Fixpoint engine_running (l : list Call) : bool :=
  match l with
  | [] => false
  | initPopper _ _ _ :: _ => true
  | destroyPopper :: _ => false
  | _ :: l' => engine_running l'
  end.

(** [initPopper] was never called while the engine was running. *)
Fixpoint engine_exclusive (l : list Call) : bool :=
  match l with
  | [] => true
  | initPopper _ _ _ :: l' => negb (engine_running l') && engine_exclusive l'
  | _ :: l' => engine_exclusive l'
  end.

(** The engine runs only for a mounted, shown component whose pending
    cleanup will destroy it. *)
Definition engine_owned (w : World) : Prop :=
  engine_exclusive (calls w) = true
  /\ (engine_running (calls w) = true ->
      mounted w = true /\ state_visible w = true
      /\ popper (render_props (effect_owner w)) = true).

(** The [popperConfig] of a render of [props] that evaluated [isRTL] to
    [rtl]. *)
Definition config_of (props : CDropdownProps) (rtl : bool) : PopperConfig :=
  {| modifiers_offset := offset props;
     config_placement :=
       getPlacement (placement props) (direction props) (alignment props) rtl |}.

(** A page that is right-to-left inside the menu, element 2, only. *)
Definition menu_isRTL (element : option Element) : bool :=
  match element with
  | Some 2 => true
  | _ => false
  end.

(** * Properties *)

(** ** The placement resolver *)

Lemma direction_is_Some (d lit : Direction) :
  direction_is (Some d) lit = true <-> d = lit.
Proof. destruct d, lit; simpl; split; intro H; congruence. Qed.

Lemma alignment_is_end (alignment : option Alignments) :
  alignment_is alignment dir_end = true <-> alignment = Some (align dir_end).
Proof.
  destruct alignment as [[[]|b]|]; simpl; split; intro H; congruence.
Qed.

Lemma alignment_is_not_end (alignment : option Alignments) :
  alignment <> Some (align dir_end) -> alignment_is alignment dir_end = false.
Proof.
  intro H. destruct (alignment_is alignment dir_end) eqn:E; [|reflexivity].
  apply alignment_is_end in E. contradiction.
Qed.

(** With no alignment rule in the way, the result is decided by the
    direction alone. *)
Lemma getPlacement_by_direction placement direction alignment isRTL :
  alignment <> Some (align dir_end) ->
  getPlacement placement direction alignment isRTL =
  match direction with
  | Some dropup => if isRTL then p_top_end else p_top_start
  | Some dropup_center => p_top
  | Some dropend => if isRTL then p_left_start else p_right_start
  | Some dropstart => if isRTL then p_right_start else p_left_start
  | Some center | None => placement
  end.
Proof.
  intro H. unfold getPlacement. rewrite (alignment_is_not_end _ H).
  destruct direction as [[]|]; reflexivity.
Qed.

Lemma getPlacement_align_end placement direction isRTL :
  getPlacement placement direction (Some (align dir_end)) isRTL =
  if isRTL then p_bottom_start else p_bottom_end.
Proof. reflexivity. Qed.

(** C1: for every requested placement, direction 'dropup' resolves to
    'top-start', and to 'top-end' under right-to-left, as long as the
    alignment rule, which comes later, does not apply; alignment 'end'
    resolves to 'bottom-end', and to 'bottom-start' under right-to-left,
    whatever the direction. *)
Theorem getPlacement_dropup_and_end :
  forall (placement : Placements) (alignment : option Alignments),
    alignment <> Some (align dir_end) ->
    (getPlacement placement (Some dropup) alignment false = p_top_start
     /\ getPlacement placement (Some dropup) alignment true = p_top_end)
    /\ (forall direction : option Direction,
          getPlacement placement direction (Some (align dir_end)) false
          = p_bottom_end
          /\ getPlacement placement direction (Some (align dir_end)) true
             = p_bottom_start).
Proof.
  intros placement alignment H. split.
  - split; rewrite getPlacement_by_direction by assumption; reflexivity.
  - intro direction. split; apply getPlacement_align_end.
Qed.

Lemma getPlacement_dropup_and_end_witness :
  (getPlacement p_bottom_start (Some dropup) None false = p_top_start
   /\ getPlacement p_bottom_start (Some dropup) None true = p_top_end)
  /\ (forall direction : option Direction,
        getPlacement p_bottom_start direction (Some (align dir_end)) false
        = p_bottom_end
        /\ getPlacement p_bottom_start direction (Some (align dir_end)) true
           = p_bottom_start).
Proof.
  apply (getPlacement_dropup_and_end p_bottom_start None). discriminate.
Defined.

(** C2: when a direction rule and the rule for alignment 'end' both apply,
    the alignment rule, which is last, decides: the result is 'bottom-end'
    ('bottom-start' under right-to-left), and it is not what the direction
    rule alone yields. *)
Theorem getPlacement_alignment_overrides_direction :
  forall (placement : Placements) (direction : option Direction) (isRTL : bool),
    has_direction_rule direction = true ->
    getPlacement placement direction (Some (align dir_end)) isRTL
    = (if isRTL then p_bottom_start else p_bottom_end)
    /\ getPlacement placement direction (Some (align dir_end)) isRTL
       <> getPlacement placement direction None isRTL.
Proof.
  intros placement direction isRTL H. split; [reflexivity|].
  destruct direction as [[]|]; try discriminate H; destruct isRTL; discriminate.
Qed.

Lemma getPlacement_alignment_overrides_direction_witness :
  getPlacement p_bottom_start (Some dropup) (Some (align dir_end)) false
  = p_bottom_end
  /\ getPlacement p_bottom_start (Some dropup) (Some (align dir_end)) false
     <> getPlacement p_bottom_start (Some dropup) None false.
Proof.
  apply (getPlacement_alignment_overrides_direction
           p_bottom_start (Some dropup) false).
  reflexivity.
Defined.

Lemma documented_placements_NoDup : NoDup documented_placements.
Proof.
  unfold documented_placements.
  repeat (constructor; [simpl; intuition discriminate|]). constructor.
Qed.

(** Every placement is a result of the resolver: the requested placement
    comes back when no rule applies. *)
Lemma getPlacement_default (placement : Placements) :
  getPlacement placement None None false = placement.
Proof. reflexivity. Qed.

(** Each of the seven placements of the rules is a result, whatever was
    requested. *)
Lemma rule_placements_attained (placement v : Placements) :
  In v rule_placements ->
  exists direction alignment isRTL,
    getPlacement placement direction alignment isRTL = v.
Proof.
  simpl. intros [H | [H | [H | [H | [H | [H | [H | []]]]]]]]; subst v.
  - exists (Some dropup), None, true. reflexivity.
  - exists (Some dropup), None, false. reflexivity.
  - exists (Some dropup_center), None, false. reflexivity.
  - exists (Some dropend), None, true. reflexivity.
  - exists (Some dropend), None, false. reflexivity.
  - exists None, (Some (align dir_end)), true. reflexivity.
  - exists None, (Some (align dir_end)), false. reflexivity.
Qed.

(** C7, as stated, fails: the resolver has no fixed enum of nine members.
    The documented placements, requested with no direction and no
    alignment, already come back as more than nine different results, so no
    set of nine placements holds every result. *)
Lemma no_nine_member_placement_enum :
  ~ exists enum : list Placements,
      length enum = 9
      /\ forall placement direction alignment isRTL,
           In (getPlacement placement direction alignment isRTL) enum.
Proof.
  intros [enum [Hlen Hin]].
  assert (Hincl : incl documented_placements enum).
  { intros p _. rewrite <- (getPlacement_default p). apply Hin. }
  pose proof (NoDup_incl_length documented_placements_NoDup Hincl) as Hle.
  rewrite Hlen in Hle. simpl in Hle. lia.
Qed.

(** C7, amended: for every requested placement and every direction,
    alignment and right-to-left flag, the result is the requested placement
    or one of the seven placements that the rules assign; and equal inputs
    give equal results. *)
Theorem getPlacement_range :
  forall placement direction alignment isRTL,
    (getPlacement placement direction alignment isRTL = placement
     \/ In (getPlacement placement direction alignment isRTL) rule_placements)
    /\ (forall placement' direction' alignment' isRTL',
          (placement', direction', alignment', isRTL')
          = (placement, direction, alignment, isRTL) ->
          getPlacement placement' direction' alignment' isRTL'
          = getPlacement placement direction alignment isRTL).
Proof.
  intros placement direction alignment isRTL. split.
  - destruct (alignment_is alignment dir_end) eqn:E.
    + apply alignment_is_end in E. subst alignment.
      rewrite getPlacement_align_end. right. destruct isRTL; simpl; tauto.
    + assert (H : alignment <> Some (align dir_end)).
      { intro H. apply alignment_is_end in H. congruence. }
      rewrite (getPlacement_by_direction _ _ _ _ H).
      destruct direction as [[]|]; try (left; reflexivity);
        right; destruct isRTL; simpl; tauto.
  - intros placement' direction' alignment' isRTL' H.
    injection H as -> -> -> ->. reflexivity.
Qed.

(** C8: the resolver is a total function, and for a direction without a
    rule ('center' or absent) and an alignment other than 'end' it returns
    the requested placement. *)
Theorem getPlacement_fall_through :
  forall placement direction alignment isRTL,
    has_direction_rule direction = false ->
    alignment <> Some (align dir_end) ->
    getPlacement placement direction alignment isRTL = placement.
Proof.
  intros placement direction alignment isRTL Hd Ha.
  rewrite getPlacement_by_direction by assumption.
  destruct direction as [[]|]; try discriminate Hd; reflexivity.
Qed.

Lemma getPlacement_fall_through_witness :
  getPlacement p_right_end (Some center) (Some (responsive (md dir_end))) true
  = p_right_end.
Proof.
  apply (getPlacement_fall_through
           p_right_end (Some center) (Some (responsive (md dir_end))) true).
  - reflexivity.
  - discriminate.
Defined.

(** ** The listener list *)

Lemma filter_swap {A : Type} (f g : A -> bool) (l : list A) :
  filter f (filter g l) = filter g (filter f l).
Proof.
  induction l as [|a l IH]; simpl; [reflexivity|].
  destruct (g a) eqn:G, (f a) eqn:F; simpl; rewrite ?G, ?F, ?IH; reflexivity.
Qed.

Lemma same_function_refl (f : Listener) : same_function f f = true.
Proof. destruct f; simpl; apply Nat.eqb_refl. Qed.

Lemma same_listener_refl (entry : EventType * Listener) :
  same_listener entry entry = true.
Proof.
  destruct entry as [[] f]; unfold same_listener; simpl;
    apply same_function_refl.
Qed.

Lemma foreign_only (ls : list (EventType * Listener)) :
  forallb (fun entry => negb (is_own entry)) ls = true ->
  filter is_own ls = [].
Proof.
  induction ls as [|a ls IH]; simpl; [reflexivity|].
  intro H. apply andb_prop in H as [Ha Hls].
  apply negb_true_iff in Ha. rewrite Ha. auto.
Qed.

(** A handler of the component is not on a list without own listeners. *)
Lemma not_registered (entry : EventType * Listener)
    (ls : list (EventType * Listener)) :
  is_own entry = true ->
  filter is_own ls = [] ->
  existsb (same_listener entry) ls = false.
Proof.
  intro Hown. induction ls as [|a ls IH]; simpl; [reflexivity|].
  destruct (is_own a) eqn:E; [discriminate|]. intro H.
  rewrite (IH H), orb_false_r.
  destruct a as [ty g], entry as [ty' f]. unfold is_own in *. simpl in *.
  unfold same_listener. simpl.
  destruct g; try discriminate E.
  destruct f; try discriminate Hown; simpl; apply andb_false_r.
Qed.

(** *** What the effect and its cleanup leave alone *)

Lemma same_component_refl (w : World) : same_component w w.
Proof. unfold same_component. tauto. Qed.

Lemma same_component_trans (w1 w2 w3 : World) :
  same_component w1 w2 -> same_component w2 w3 -> same_component w1 w3.
Proof.
  unfold same_component. intros H1 H2.
  decompose [and] H1. decompose [and] H2.
  repeat split; congruence.
Qed.

Lemma call_frame (c : Call) (w : World) : same_component w (call c w).
Proof. unfold same_component. simpl. tauto. Qed.

Lemma addEventListener_frame ty f (w : World) :
  same_component w (addEventListener ty f w).
Proof.
  unfold same_component, addEventListener.
  destruct (existsb _ _); simpl; tauto.
Qed.

Lemma removeEventListener_frame ty f (w : World) :
  same_component w (removeEventListener ty f w).
Proof. unfold same_component. simpl. tauto. Qed.

Lemma effect_body_frame (r : Render) (w : World) :
  same_component w (effect_body r w).
Proof.
  unfold effect_body.
  destruct (_visible r), (dropdownToggleRef w), (dropdownMenuRef w);
    try apply same_component_refl.
  destruct (popper (render_props r)), (onShow (render_props r));
    repeat (eapply same_component_trans;
            [|first [apply call_frame | apply addEventListener_frame]]);
    apply same_component_refl.
Qed.

Lemma effect_cleanup_frame (r : Render) (w : World) :
  same_component w (effect_cleanup r w).
Proof.
  unfold effect_cleanup.
  destruct (popper (render_props r)), (onHide (render_props r));
    repeat (eapply same_component_trans;
            [|first [apply call_frame | apply removeEventListener_frame]]);
    apply same_component_refl.
Qed.

(** The calls of the effect and of its cleanup. *)
Lemma addEventListener_calls ty f (w : World) :
  calls (addEventListener ty f w) = calls w.
Proof. unfold addEventListener. destruct (existsb _ _); reflexivity. Qed.

Lemma effect_body_calls (r : Render) (w : World) :
  calls (effect_body r w) = body_calls r w ++ calls w.
Proof.
  unfold effect_body, body_calls.
  destruct (_visible r), (dropdownToggleRef w), (dropdownMenuRef w);
    try reflexivity.
  destruct (popper (render_props r)), (onShow (render_props r)); simpl;
    rewrite ?addEventListener_calls; simpl;
    rewrite ?addEventListener_calls; reflexivity.
Qed.

Lemma effect_cleanup_calls (r : Render) (w : World) :
  calls (effect_cleanup r w) = cleanup_calls r ++ calls w.
Proof.
  unfold effect_cleanup, cleanup_calls.
  destruct (popper (render_props r)), (onHide (render_props r));
    reflexivity.
Qed.

(** The listeners of the effect and of its cleanup. *)
Lemma call_listeners (c : Call) (w : World) :
  window_listeners (call c w) = window_listeners w.
Proof. reflexivity. Qed.

Lemma effect_cleanup_listeners (r : Render) (w : World) :
  window_listeners (effect_cleanup r w) =
  filter (fun entry => negb (same_listener (keyup, handleKeyup_of r) entry))
    (filter
       (fun entry => negb (same_listener (mouseup, handleMouseUp_of r) entry))
       (window_listeners w)).
Proof.
  unfold effect_cleanup.
  destruct (popper (render_props r)), (onHide (render_props r));
    reflexivity.
Qed.

Lemma effect_cleanup_own_nil (r : Render) (w : World) :
  own_listeners w = [] -> own_listeners (effect_cleanup r w) = [].
Proof.
  unfold own_listeners. intro H.
  rewrite effect_cleanup_listeners, !(filter_swap is_own), H. reflexivity.
Qed.

Lemma effect_cleanup_own_attached (w : World) :
  attached w -> own_listeners (effect_cleanup (effect_owner w) w) = [].
Proof.
  unfold attached, own_listeners. intro H.
  rewrite effect_cleanup_listeners, !(filter_swap is_own), H.
  unfold same_listener. cbn. rewrite Nat.eqb_refl. cbn.
  rewrite Nat.eqb_refl. reflexivity.
Qed.

Lemma effect_cleanup_foreign (r : Render) (w : World) :
  foreign_listeners (effect_cleanup r w) = foreign_listeners w.
Proof.
  unfold foreign_listeners. rewrite effect_cleanup_listeners.
  induction (window_listeners w) as [|[ty f] ls IH]; [reflexivity|].
  destruct f; simpl;
    repeat match goal with
      | |- context [if ?b then _ else _] => destruct b eqn:?; simpl
      end; rewrite ?IH; try reflexivity.
  - unfold same_listener in *. simpl in *. rewrite andb_false_r in *.
    discriminate.
  - unfold same_listener in *. simpl in *. rewrite andb_false_r in *.
    discriminate.
Qed.

Lemma effect_body_listeners (r : Render) (w : World) :
  own_listeners w = [] ->
  window_listeners (effect_body r w) =
  window_listeners w ++
  match _visible r, dropdownToggleRef w, dropdownMenuRef w with
  | true, Some _, Some _ =>
      [(mouseup, handleMouseUp_of r); (keyup, handleKeyup_of r)]
  | _, _, _ => []
  end.
Proof.
  unfold own_listeners, effect_body. intro H.
  destruct (_visible r), (dropdownToggleRef w), (dropdownMenuRef w);
    try (rewrite app_nil_r; reflexivity).
  assert (E : forall w', window_listeners w' = window_listeners w ->
    window_listeners
      (addEventListener keyup (handleKeyup_of r)
         (addEventListener mouseup (handleMouseUp_of r) w'))
    = window_listeners w
      ++ [(mouseup, handleMouseUp_of r); (keyup, handleKeyup_of r)]).
  { intros w' Hw'. unfold addEventListener at 2. rewrite Hw'.
    rewrite not_registered by (assumption || reflexivity).
    unfold addEventListener. simpl.
    rewrite existsb_app, not_registered by (assumption || reflexivity).
    simpl. rewrite <- app_assoc. reflexivity. }
  destruct (popper (render_props r)), (onShow (render_props r)); simpl;
    apply E; reflexivity.
Qed.


(** ** Renders and the state setter *)

Section Controller.

Variable isRTL : option Element -> bool.

Lemma render_commit_frame (props : CDropdownProps) (w : World) :
  mounted (render_commit isRTL props w) = mounted w
  /\ state_visible (render_commit isRTL props w) = state_visible w
  /\ dropdownToggleRef (render_commit isRTL props w) = dropdownToggleRef w
  /\ dropdownMenuRef (render_commit isRTL props w) = dropdownMenuRef w
  /\ timeouts (render_commit isRTL props w) = timeouts w
  /\ _visible (current (render_commit isRTL props w)) = state_visible w
  /\ render_props (current (render_commit isRTL props w)) = props.
Proof.
  unfold render_commit.
  destruct (Bool.eqb _ _); [simpl; tauto|].
  set (r := CDropdown isRTL props w).
  set (w1 := set_current r w).
  pose proof (effect_cleanup_frame (effect_owner w1) w1) as Hc.
  pose proof (effect_body_frame r (effect_cleanup (effect_owner w1) w1)) as Hb.
  destruct (same_component_trans _ _ _ Hc Hb)
    as (Hm & _ & Hcur & Hs & Ht & Hn & _ & Hto).
  remember (effect_body r (effect_cleanup (effect_owner w1) w1)) as w2.
  simpl. rewrite Hm, Hs, Ht, Hn, Hto, Hcur. simpl. tauto.
Qed.

Lemma render_commit_same (props : CDropdownProps) (w : World) :
  _visible (current w) = state_visible w ->
  render_commit isRTL props w = set_current (CDropdown isRTL props w) w.
Proof.
  intro H. unfold render_commit. simpl. rewrite H, Bool.eqb_reflx.
  reflexivity.
Qed.

(** A call of the setter that changes the state: the component renders,
    the pending cleanup runs, then the effect of the new render. *)
Lemma setVisible_change (v : bool) (w : World) :
  mounted w = true ->
  state_visible w <> v ->
  _visible (current w) = state_visible w ->
  setVisible isRTL v w =
  let r := CDropdown isRTL (render_props (current w)) (set_state v w) in
  set_owner r
    (effect_body r
       (effect_cleanup (effect_owner w) (set_current r (set_state v w)))).
Proof.
  intros Hm Hv Hc. unfold setVisible. rewrite Hm. simpl.
  destruct (Bool.eqb v (state_visible w)) eqn:E.
  - apply Bool.eqb_prop in E. congruence.
  - unfold render_commit. simpl. rewrite Hc, E. reflexivity.
Qed.

Lemma setVisible_frame (v : bool) (w : World) :
  mounted (setVisible isRTL v w) = mounted w
  /\ dropdownToggleRef (setVisible isRTL v w) = dropdownToggleRef w
  /\ dropdownMenuRef (setVisible isRTL v w) = dropdownMenuRef w
  /\ timeouts (setVisible isRTL v w) = timeouts w.
Proof.
  unfold setVisible.
  destruct (negb (mounted w)); [tauto|].
  destruct (Bool.eqb v (state_visible w)); [tauto|].
  destruct (render_commit_frame (render_props (current w)) (set_state v w))
    as (Hm & _ & Ht & Hn & Hto & _).
  rewrite Hm, Ht, Hn, Hto. simpl. tauto.
Qed.

(** On a mounted component the setter stores its argument. *)
Lemma setVisible_state (v : bool) (w : World) :
  mounted w = true -> state_visible (setVisible isRTL v w) = v.
Proof.
  intro Hm. unfold setVisible. rewrite Hm. simpl.
  destruct (Bool.eqb v (state_visible w)) eqn:E.
  - apply Bool.eqb_prop in E. congruence.
  - destruct (render_commit_frame (render_props (current w)) (set_state v w))
      as (_ & Hs & _).
    rewrite Hs. reflexivity.
Qed.

Lemma setVisible_current (v : bool) (w : World) :
  _visible (current w) = state_visible w ->
  _visible (current (setVisible isRTL v w))
  = state_visible (setVisible isRTL v w).
Proof.
  intro H. unfold setVisible.
  destruct (negb (mounted w)); [exact H|].
  destruct (Bool.eqb v (state_visible w)); [exact H|].
  destruct (render_commit_frame (render_props (current w)) (set_state v w))
    as (_ & Hs & _ & _ & _ & Hc & _).
  rewrite Hs, Hc. reflexivity.
Qed.

Lemma setVisible_unmounted (v : bool) (w : World) :
  mounted w = false -> setVisible isRTL v w = w.
Proof. intro Hm. unfold setVisible. rewrite Hm. reflexivity. Qed.

Lemma setVisible_same (w : World) :
  setVisible isRTL (state_visible w) w = w.
Proof.
  unfold setVisible. rewrite Bool.eqb_reflx.
  destruct (negb (mounted w)); reflexivity.
Qed.

(** The listeners after a call of the setter that changes the state. *)
Lemma setVisible_change_own (v : bool) (w : World) :
  consistent w ->
  mounted w = true ->
  state_visible w <> v ->
  own_listeners (setVisible isRTL v w) =
  match v, dropdownToggleRef w, dropdownMenuRef w with
  | true, Some _, Some _ =>
      [(mouseup, handleMouseUp_of (effect_owner (setVisible isRTL v w)));
       (keyup, handleKeyup_of (effect_owner (setVisible isRTL v w)))]
  | _, _, _ => []
  end.
Proof.
  intros [Hc Hl] Hm Hv.
  rewrite (setVisible_change v w Hm Hv Hc). cbv zeta.
  set (r := CDropdown isRTL (render_props (current w)) (set_state v w)).
  set (w1 := set_current r (set_state v w)).
  assert (Hnil : own_listeners (effect_cleanup (effect_owner w) w1) = []).
  { destruct Hl as [Hl | (_ & _ & Hl)].
    - apply effect_cleanup_own_nil. exact Hl.
    - apply (effect_cleanup_own_attached w1). exact Hl. }
  destruct (effect_cleanup_frame (effect_owner w) w1)
    as (_ & _ & _ & _ & Ht & Hn & _).
  unfold own_listeners in *. simpl.
  rewrite (effect_body_listeners r _ Hnil), filter_app, Hnil, Ht, Hn.
  subst w1. simpl.
  destruct v, (dropdownToggleRef w), (dropdownMenuRef w); reflexivity.
Qed.

Lemma setVisible_consistent (v : bool) (w : World) :
  consistent w -> consistent (setVisible isRTL v w).
Proof.
  intro H.
  destruct (mounted w) eqn:Hm;
    [|rewrite setVisible_unmounted by assumption; exact H].
  destruct (Bool.bool_dec (state_visible w) v) as [E | E].
  { subst v. rewrite setVisible_same. exact H. }
  pose proof (setVisible_change_own _ w H Hm E) as Hown.
  pose proof (setVisible_state v w Hm) as Hs.
  destruct (setVisible_frame v w) as (Hm' & _).
  split.
  - apply setVisible_current. apply H.
  - destruct v; [|left; exact Hown].
    destruct (dropdownToggleRef w), (dropdownMenuRef w);
      try (left; exact Hown).
    right. unfold attached. rewrite Hm', Hs. auto.
Qed.

(** Entering [shown] with toggle and menu in place: the handlers of the
    new render are attached. *)
Lemma setVisible_true_attached (w : World) :
  consistent w ->
  mounted w = true ->
  state_visible w = false ->
  is_some (dropdownToggleRef w) = true ->
  is_some (dropdownMenuRef w) = true ->
  attached (setVisible isRTL true w)
  /\ effect_owner (setVisible isRTL true w)
     = current (setVisible isRTL true w).
Proof.
  intros H Hm Hs Ht Hn.
  assert (E : state_visible w <> true) by congruence.
  split.
  - unfold attached. rewrite (setVisible_change_own _ w H Hm E).
    destruct (dropdownToggleRef w), (dropdownMenuRef w);
      try discriminate; reflexivity.
  - destruct H as [Hc _]. rewrite (setVisible_change _ w Hm E Hc).
    simpl.
    match goal with
    | |- _ = current (effect_body ?r ?w') =>
        destruct (effect_body_frame r w') as (_ & _ & -> & _);
        destruct (effect_cleanup_frame (effect_owner w)
                    (set_current r (set_state true w)))
          as (_ & _ & -> & _)
    end.
    reflexivity.
Qed.

(** The calls of a call of the setter that changes the state. *)
Lemma setVisible_change_calls (v : bool) (w : World) :
  mounted w = true ->
  state_visible w <> v ->
  _visible (current w) = state_visible w ->
  calls (setVisible isRTL v w) =
  body_calls (CDropdown isRTL (render_props (current w)) (set_state v w)) w
  ++ cleanup_calls (effect_owner w) ++ calls w.
Proof.
  intros Hm Hv Hc. rewrite (setVisible_change v w Hm Hv Hc). cbv zeta.
  simpl. rewrite effect_body_calls, effect_cleanup_calls. simpl.
  f_equal. unfold body_calls.
  match goal with
  | |- context [effect_cleanup ?o ?w'] =>
      destruct (effect_cleanup_frame o w') as (_ & _ & _ & _ & -> & -> & _)
  end.
  reflexivity.
Qed.

End Controller.

(** ** Handlers, events and the invariant *)

Lemma AutoClose_eqb_eq (a b : AutoClose) : AutoClose_eqb a b = true <-> a = b.
Proof.
  destruct a as [[]| |], b as [[]| |]; simpl; split; intro H;
    congruence.
Qed.

Lemma AutoClose_eqb_neq (a b : AutoClose) : a <> b -> AutoClose_eqb a b = false.
Proof.
  intro H. destruct (AutoClose_eqb a b) eqn:E; [|reflexivity].
  apply AutoClose_eqb_eq in E. contradiction.
Qed.

Lemma fold_left_invariant {A B : Type} (P : A -> Prop) (f : A -> B -> A)
    (l : list B) :
  (forall a b, P a -> P (f a b)) -> forall a, P a -> P (fold_left f l a).
Proof.
  intro Hf. induction l as [|b l IH]; simpl; auto.
Qed.

Lemma fold_left_fixed {A B : Type} (f : A -> B -> A) (l : list B) (a : A) :
  (forall b, In b l -> f a b = a) -> fold_left f l a = a.
Proof.
  induction l as [|b l IH]; simpl; [reflexivity|].
  intro H. rewrite (H b) by auto. apply IH. auto.
Qed.

Section Events.

Variable contains : Element -> Element -> bool.
Variable isRTL : option Element -> bool.

(** Only the handlers of the component act on its world. *)
Lemma dispatchEvent_own (event : Event) (w : World) :
  dispatchEvent contains isRTL event w =
  fold_left
    (fun w entry =>
       if EventType_eqb (fst entry) (event_type event)
       then invoke contains isRTL (snd entry) event w else w)
    (own_listeners w) w.
Proof.
  unfold dispatchEvent, own_listeners.
  generalize w at 2 4.
  induction (window_listeners w) as [|[ty f] ls IH]; intro w0;
    [reflexivity|].
  simpl. destruct f; simpl; try apply IH.
  destruct (EventType_eqb ty (event_type event)); apply IH.
Qed.

Lemma dispatchEvent_no_listener (event : Event) (w : World) :
  own_listeners w = [] -> dispatchEvent contains isRTL event w = w.
Proof. intro H. rewrite dispatchEvent_own, H. reflexivity. Qed.

Lemma dispatchEvent_keyup_attached (key : string) (target : Element)
    (w : World) :
  attached w ->
  dispatchEvent contains isRTL (KeyUp key target) w
  = handleKeyup isRTL (effect_owner w) (KeyUp key target) w.
Proof. intro H. rewrite dispatchEvent_own, H. reflexivity. Qed.

Lemma dispatchEvent_mouseup_attached (target : Element) (w : World) :
  attached w ->
  dispatchEvent contains isRTL (MouseUp target) w
  = handleMouseUp contains (effect_owner w) (MouseUp target) w.
Proof. intro H. rewrite dispatchEvent_own, H. reflexivity. Qed.

(** *** The invariant *)

Lemma set_current_consistent (r : Render) (w : World) :
  _visible r = state_visible w ->
  consistent w -> consistent (set_current r w).
Proof. intros Hr [_ H]. split; [exact Hr | exact H]. Qed.

Lemma set_timeouts_consistent (n : nat) (w : World) :
  consistent w -> consistent (set_timeouts n w).
Proof. intro H. exact H. Qed.

Lemma set_refs_consistent (toggle menu : option Element) (w : World) :
  consistent w -> consistent (set_refs toggle menu w).
Proof. intro H. exact H. Qed.

Lemma setProps_render (props : CDropdownProps) (w : World) :
  consistent w ->
  consistent (render_commit isRTL props w)
  /\ render_commit isRTL props w = set_current (CDropdown isRTL props w) w.
Proof.
  intro H. rewrite render_commit_same by apply H. split; [|reflexivity].
  apply set_current_consistent; [reflexivity | exact H].
Qed.

Lemma setProps_consistent (props : CDropdownProps) (w : World) :
  consistent w -> consistent (setProps isRTL props w).
Proof.
  intro H. unfold setProps.
  destruct (negb (mounted w)); [exact H|].
  destruct (Bool.eqb _ _).
  - apply setProps_render. exact H.
  - apply setVisible_consistent. apply setProps_render. exact H.
Qed.

(** A handler changes the world by [setVisible(false)] or by scheduling a
    timeout, so an event keeps whatever those two keep. *)
Lemma invoke_preserves (P : World -> Prop) (f : Listener) (event : Event)
    (w : World) :
  (forall w', P w' -> P (setVisible isRTL false w')) ->
  (forall n w', P w' -> P (set_timeouts n w')) ->
  P w -> P (invoke contains isRTL f event w).
Proof.
  intros Hset Htimeout H. destruct f as [r | r | n]; simpl; [| |exact H].
  - unfold handleMouseUp.
    destruct (dropdownToggleRef w), (dropdownMenuRef w); try exact H.
    destruct (contains _ _); [exact H|].
    destruct (_ || _); [apply Htimeout|]; exact H.
  - unfold handleKeyup.
    destruct (AutoClose_eqb _ _); [exact H|].
    destruct (event_key event) as [key|]; [|exact H].
    destruct (String.eqb key "Escape"); [apply Hset|]; exact H.
Qed.

Lemma dispatchEvent_preserves (P : World -> Prop) (event : Event) (w : World) :
  (forall w', P w' -> P (setVisible isRTL false w')) ->
  (forall n w', P w' -> P (set_timeouts n w')) ->
  P w -> P (dispatchEvent contains isRTL event w).
Proof.
  intros Hset Htimeout. unfold dispatchEvent. apply fold_left_invariant.
  intros w' [ty f] H. simpl.
  destruct (EventType_eqb ty (event_type event)); [|exact H].
  apply invoke_preserves; assumption.
Qed.

Lemma dispatchEvent_consistent (event : Event) (w : World) :
  consistent w -> consistent (dispatchEvent contains isRTL event w).
Proof.
  apply dispatchEvent_preserves.
  - intros w'. apply setVisible_consistent.
  - intros n w'. apply set_timeouts_consistent.
Qed.

Lemma fireTimeout_consistent (w : World) :
  consistent w -> consistent (fireTimeout isRTL w).
Proof.
  intro H. unfold fireTimeout. destruct (timeouts w); [exact H|].
  apply setVisible_consistent, set_timeouts_consistent. exact H.
Qed.

(** After the pending cleanup the component has no listener left. *)
Lemma pending_cleanup_removes (w : World) :
  consistent w -> own_listeners (effect_cleanup (effect_owner w) w) = [].
Proof.
  intros [_ [H | (_ & _ & H)]].
  - apply effect_cleanup_own_nil. exact H.
  - apply effect_cleanup_own_attached. exact H.
Qed.

Lemma unmount_own (w : World) :
  consistent w -> own_listeners (unmount w) = [].
Proof.
  intro H. unfold unmount. destruct (mounted w) eqn:Hm; simpl.
  - apply (pending_cleanup_removes w H).
  - destruct H as [_ [H | (Hm' & _)]]; [exact H | congruence].
Qed.

Lemma unmount_consistent (w : World) :
  consistent w -> consistent (unmount w).
Proof.
  intro H. split; [|left; apply unmount_own; exact H].
  unfold unmount. destruct (negb (mounted w)); [apply H|].
  destruct (effect_cleanup_frame (effect_owner w) w)
    as (_ & _ & Hc & Hs & _).
  simpl. rewrite Hc, Hs. apply H.
Qed.

Lemma step_consistent (a : Action) (w : World) :
  consistent w -> consistent (step contains isRTL a w).
Proof.
  intro H. destruct a; simpl.
  - apply setProps_consistent. exact H.
  - apply setVisible_consistent. exact H.
  - apply dispatchEvent_consistent. exact H.
  - apply fireTimeout_consistent. exact H.
  - destruct (mounted w); [apply set_refs_consistent|]; exact H.
  - apply unmount_consistent. exact H.
Qed.

(** At mount the [[visible]] effect sets the state to the value it has. *)
Lemma mount_effects (props : CDropdownProps) (toggle menu : option Element)
    (listeners : list (EventType * Listener)) :
  mount isRTL props toggle menu listeners =
  effect_body (first_render isRTL props)
    (committed isRTL props toggle menu listeners).
Proof.
  unfold mount. cbv zeta.
  change (visible props)
    with (state_visible (committed isRTL props toggle menu listeners)) at 1.
  rewrite setVisible_same. reflexivity.
Qed.

(** The listeners right after mount. *)
Lemma mount_listeners (props : CDropdownProps) (toggle menu : option Element)
    (listeners : list (EventType * Listener)) :
  forallb (fun entry => negb (is_own entry)) listeners = true ->
  window_listeners (mount isRTL props toggle menu listeners) =
  listeners ++
  match visible props, toggle, menu with
  | true, Some _, Some _ =>
      [(mouseup,
        handleMouseUp_of
          (effect_owner (mount isRTL props toggle menu listeners)));
       (keyup,
        handleKeyup_of
          (effect_owner (mount isRTL props toggle menu listeners)))]
  | _, _, _ => []
  end.
Proof.
  intro Hf. apply foreign_only in Hf. rewrite mount_effects.
  destruct (effect_body_frame (first_render isRTL props)
              (committed isRTL props toggle menu listeners))
    as (_ & _ & _ & _ & _ & _ & -> & _).
  rewrite effect_body_listeners by exact Hf. reflexivity.
Qed.

Lemma mount_frame (props : CDropdownProps) (toggle menu : option Element)
    (listeners : list (EventType * Listener)) :
  mounted (mount isRTL props toggle menu listeners) = true
  /\ state_visible (mount isRTL props toggle menu listeners) = visible props
  /\ _visible (current (mount isRTL props toggle menu listeners))
     = visible props
  /\ render_props (current (mount isRTL props toggle menu listeners)) = props
  /\ dropdownToggleRef (mount isRTL props toggle menu listeners) = toggle
  /\ dropdownMenuRef (mount isRTL props toggle menu listeners) = menu.
Proof.
  rewrite mount_effects.
  destruct (effect_body_frame (first_render isRTL props)
              (committed isRTL props toggle menu listeners))
    as (-> & _ & -> & -> & -> & -> & _).
  simpl. tauto.
Qed.

Lemma mount_consistent (props : CDropdownProps) (toggle menu : option Element)
    (listeners : list (EventType * Listener)) :
  forallb (fun entry => negb (is_own entry)) listeners = true ->
  consistent (mount isRTL props toggle menu listeners).
Proof.
  intro Hf.
  destruct (mount_frame props toggle menu listeners)
    as (Hm & Hs & Hc & _).
  pose proof (mount_listeners props toggle menu listeners Hf) as Hl.
  apply foreign_only in Hf.
  split; [congruence|].
  unfold attached, own_listeners. rewrite Hl, filter_app, Hf, Hm, Hs.
  destruct (visible props), toggle, menu; simpl; auto.
Qed.

Theorem reachable_consistent (w : World) :
  reachable contains isRTL w -> consistent w.
Proof.
  induction 1 as [props toggle menu listeners Hf | a w _ IH].
  - apply mount_consistent. exact Hf.
  - apply step_consistent. exact IH.
Qed.

End Events.

(** ** The visibility controller *)

Section Visibility.

Variable contains : Element -> Element -> bool.
Variable isRTL : option Element -> bool.

(** C3: while the panel is shown, [handleKeyup] of any render, given a
    released Escape key, hides the panel when the auto-close mode of that
    render is not [false], and changes nothing when it is [false]; with the
    handlers attached, the key event on [window] is that call. *)
Theorem escape_closes_unless_never :
  forall (w : World) (r : Render) (target : Element),
    mounted w = true ->
    state_visible w = true ->
    (autoClose (render_props r) <> ac_bool false ->
     state_visible (handleKeyup isRTL r (KeyUp "Escape" target) w) = false)
    /\ (autoClose (render_props r) = ac_bool false ->
        handleKeyup isRTL r (KeyUp "Escape" target) w = w
        /\ state_visible (handleKeyup isRTL r (KeyUp "Escape" target) w) = true)
    /\ (attached w ->
        dispatchEvent contains isRTL (KeyUp "Escape" target) w
        = handleKeyup isRTL (effect_owner w) (KeyUp "Escape" target) w).
Proof.
  intros w r target Hm Hs. unfold handleKeyup. repeat split.
  - intro H. rewrite (AutoClose_eqb_neq _ _ H). simpl.
    apply setVisible_state. exact Hm.
  - rewrite H. reflexivity.
  - rewrite H. exact Hs.
  - intro Ha. apply dispatchEvent_keyup_attached. exact Ha.
Qed.

(** C4: while the panel is shown, with toggle and menu in place,
    [handleMouseUp] of a render with auto-close mode 'outside' changes
    nothing on a pointer release inside the menu; with mode 'outside' or
    [true] it schedules the dismissal on a release outside toggle and menu,
    and the panel is hidden once that timeout has fired; with the handlers
    attached, the pointer event on [window] is that call. *)
Theorem outside_release_closes :
  forall (w : World) (r : Render) (toggle menu target : Element),
    mounted w = true ->
    state_visible w = true ->
    dropdownToggleRef w = Some toggle ->
    dropdownMenuRef w = Some menu ->
    (autoClose (render_props r) = ac_outside ->
     contains menu target = true ->
     handleMouseUp contains r (MouseUp target) w = w)
    /\ (autoClose (render_props r) = ac_outside
        \/ autoClose (render_props r) = ac_bool true ->
        contains toggle target = false ->
        contains menu target = false ->
        timeouts (handleMouseUp contains r (MouseUp target) w)
        = S (timeouts w)
        /\ state_visible
             (fireTimeout isRTL (handleMouseUp contains r (MouseUp target) w))
           = false)
    /\ (attached w ->
        dispatchEvent contains isRTL (MouseUp target) w
        = handleMouseUp contains (effect_owner w) (MouseUp target) w).
Proof.
  intros w r toggle menu target Hm Hs Ht Hn.
  unfold handleMouseUp. rewrite Ht, Hn. simpl. split; [|split].
  - intros H Hin. rewrite H, Hin. simpl.
    destruct (contains toggle target); reflexivity.
  - intros H Hout Hout'. rewrite Hout, Hout'.
    assert (E : AutoClose_eqb (autoClose (render_props r)) (ac_bool true)
                || AutoClose_eqb (autoClose (render_props r)) ac_inside
                   && false
                || AutoClose_eqb (autoClose (render_props r)) ac_outside
                   && negb false = true).
    { destruct H as [-> | ->]; reflexivity. }
    rewrite E. split; [reflexivity|].
    unfold fireTimeout. simpl. apply setVisible_state. exact Hm.
  - intro Ha.
    rewrite (dispatchEvent_mouseup_attached contains isRTL _ w Ha).
    unfold handleMouseUp. rewrite Ht, Hn. reflexivity.
Qed.

(** C9: a pointer release whose target is inside the toggle, or that
    arrives while the toggle or the menu is not mounted, changes nothing,
    whatever handlers are attached and whatever auto-close mode they
    closed over. *)
Theorem release_on_toggle_or_unmounted_is_noop :
  forall (w : World) (target : Element),
    dropdownToggleRef w = None
    \/ dropdownMenuRef w = None
    \/ (exists toggle,
           dropdownToggleRef w = Some toggle
           /\ contains toggle target = true) ->
    (forall r : Render, handleMouseUp contains r (MouseUp target) w = w)
    /\ dispatchEvent contains isRTL (MouseUp target) w = w.
Proof.
  intros w target H.
  assert (Hh : forall r, handleMouseUp contains r (MouseUp target) w = w).
  { intro r. unfold handleMouseUp.
    destruct H as [-> | [-> | (toggle & -> & Hc)]].
    - reflexivity.
    - destruct (dropdownToggleRef w); reflexivity.
    - destruct (dropdownMenuRef w); [|reflexivity].
      simpl. rewrite Hc. reflexivity. }
  split; [exact Hh|].
  unfold dispatchEvent. apply fold_left_fixed.
  intros [ty f] _. simpl.
  destruct (EventType_eqb ty mouseup); [|reflexivity].
  destruct f; simpl; [apply Hh | | reflexivity].
  unfold handleKeyup. simpl. destruct (AutoClose_eqb _ _); reflexivity.
Qed.

(** *** The controlled [visible] prop *)

Lemma count_app (f : Call -> bool) (l1 l2 : list Call) :
  count f (l1 ++ l2) = count f l1 + count f l2.
Proof. unfold count. rewrite filter_app, length_app. reflexivity. Qed.

Lemma emitted_app (w w' : World) (new : list Call) :
  calls w' = new ++ calls w -> emitted w w' = new.
Proof.
  intro H. unfold emitted. rewrite H, length_app.
  replace (length new + length (calls w) - length (calls w))
    with (length new + 0) by lia.
  rewrite firstn_app_2. simpl. apply app_nil_r.
Qed.

Lemma setProps_mounted (props : CDropdownProps) (w : World) :
  mounted (setProps isRTL props w) = mounted w.
Proof.
  unfold setProps. destruct (negb (mounted w)); [reflexivity|].
  cbv zeta.
  destruct (Bool.eqb (visible props) (visible (render_props (current w)))).
  - apply render_commit_frame.
  - destruct (setVisible_frame isRTL (visible props)
                (render_commit isRTL props w)) as (-> & _).
    apply render_commit_frame.
Qed.

(** A render with another [visible] leaves the state equal to the prop. *)
Lemma setProps_mirrors_visible (props : CDropdownProps) (w : World) :
  mounted w = true ->
  visible props <> visible (render_props (current w)) ->
  state_visible (setProps isRTL props w) = visible props.
Proof.
  intros Hm Hv. unfold setProps. rewrite Hm. simpl.
  destruct (Bool.eqb (visible props) (visible (render_props (current w))))
    eqn:E; [apply Bool.eqb_prop in E; congruence|].
  apply setVisible_state.
  destruct (render_commit_frame isRTL props w) as (-> & _). exact Hm.
Qed.

(** A render with another [visible], on a consistent world: the state
    follows the prop, and the calls are those of the pending cleanup and
    of the new effect. *)
Lemma setProps_visible_changed (props : CDropdownProps) (w : World) :
  consistent w ->
  mounted w = true ->
  state_visible w <> visible props ->
  visible (render_props (current w)) <> visible props ->
  state_visible (setProps isRTL props w) = visible props
  /\ consistent (setProps isRTL props w)
  /\ render_props (current (setProps isRTL props w)) = props
  /\ effect_owner (setProps isRTL props w)
     = current (setProps isRTL props w)
  /\ emitted w (setProps isRTL props w) =
     body_calls (current (setProps isRTL props w)) w
     ++ cleanup_calls (effect_owner w).
Proof.
  intros Hc Hm Hs Hp.
  pose proof (setProps_consistent isRTL props w Hc) as Hc'.
  unfold setProps in *. rewrite Hm in *. simpl in *.
  destruct (Bool.eqb (visible props) (visible (render_props (current w))))
    eqn:E; [apply Bool.eqb_prop in E; congruence|].
  destruct (setProps_render isRTL props w Hc) as [Hc1 E1].
  rewrite E1 in *.
  set (w1 := set_current (CDropdown isRTL props w) w) in *.
  assert (Hm1 : mounted w1 = true) by exact Hm.
  assert (Hs1 : state_visible w1 <> visible props) by exact Hs.
  destruct Hc1 as [Hcur1 Hl1].
  pose proof (setVisible_change isRTL _ w1 Hm1 Hs1 Hcur1) as Hchange.
  pose proof (setVisible_change_calls isRTL _ w1 Hm1 Hs1 Hcur1) as Hcalls.
  split; [apply setVisible_state; exact Hm1|].
  split; [exact Hc'|].
  assert (Hcur : current (setVisible isRTL (visible props) w1)
                 = CDropdown isRTL props (set_state (visible props) w1)).
  { rewrite Hchange. cbv zeta. simpl.
    match goal with
    | |- current (effect_body ?r ?w') = _ =>
        destruct (effect_body_frame r w') as (_ & _ & -> & _);
        destruct (effect_cleanup_frame (effect_owner w)
                    (set_current r (set_state (visible props) w1)))
          as (_ & _ & -> & _)
    end.
    reflexivity. }
  split; [rewrite Hcur; reflexivity|].
  split; [rewrite Hcur, Hchange; reflexivity|].
  apply emitted_app. rewrite Hcalls, Hcur, <- app_assoc. reflexivity.
Qed.

(** C5, amended: on a dropdown with toggle and menu in place whose
    [visible] prop and state are both false, rendering it with
    [visible = true] shows the panel and calls [onShow] once; rendering it
    then with [visible = false] hides the panel and calls [onHide] once. *)
Theorem visible_prop_mirrored :
  forall (w : World) (props : CDropdownProps),
    reachable contains isRTL w ->
    mounted w = true ->
    render_props (current w) = props ->
    visible props = false ->
    state_visible w = false ->
    is_some (dropdownToggleRef w) = true ->
    is_some (dropdownMenuRef w) = true ->
    onShow props = true ->
    onHide props = true ->
    (state_visible (setProps isRTL (with_visible true props) w) = true
     /\ count Call_is_onShow
          (emitted w (setProps isRTL (with_visible true props) w)) = 1)
    /\ (state_visible
          (setProps isRTL (with_visible false props)
             (setProps isRTL (with_visible true props) w)) = false
        /\ count Call_is_onHide
             (emitted (setProps isRTL (with_visible true props) w)
                (setProps isRTL (with_visible false props)
                   (setProps isRTL (with_visible true props) w))) = 1).
Proof.
  intros w props Hr Hm Hp Hv Hs Ht Hn Hshow Hhide.
  apply reachable_consistent in Hr.
  assert (H1 : state_visible w <> visible (with_visible true props))
    by (rewrite Hs; discriminate).
  assert (H2 : visible (render_props (current w))
               <> visible (with_visible true props))
    by (rewrite Hp, Hv; discriminate).
  destruct (setProps_visible_changed (with_visible true props) w Hr Hm H1 H2)
    as (Hs1 & Hc1 & Hp1 & Ho1 & He1).
  set (w1 := setProps isRTL (with_visible true props) w) in *.
  assert (Hm1 : mounted w1 = true).
  { subst w1. rewrite setProps_mounted. exact Hm. }
  assert (H3 : state_visible w1 <> visible (with_visible false props))
    by (rewrite Hs1; discriminate).
  assert (H4 : visible (render_props (current w1))
               <> visible (with_visible false props))
    by (rewrite Hp1; discriminate).
  destruct (setProps_visible_changed (with_visible false props) w1
              Hc1 Hm1 H3 H4)
    as (Hs2 & _ & Hp2 & _ & He2).
  split; split.
  - exact Hs1.
  - rewrite He1, count_app. unfold body_calls.
    assert (Hvis : _visible (current w1) = true).
    { destruct Hc1 as [-> _]. exact Hs1. }
    rewrite Hvis, Hp1.
    destruct (dropdownToggleRef w); [|discriminate].
    destruct (dropdownMenuRef w); [|discriminate].
    change (onShow (with_visible true props)) with (onShow props).
    rewrite Hshow. unfold cleanup_calls.
    destruct (popper (with_visible true props)),
      (onHide (render_props (effect_owner w))),
      (popper (render_props (effect_owner w))); reflexivity.
  - exact Hs2.
  - rewrite He2, count_app. unfold body_calls.
    assert (Hvis : _visible
                     (current (setProps isRTL (with_visible false props) w1))
                   = false).
    { destruct (setProps_consistent isRTL (with_visible false props) w1 Hc1)
        as [-> _]. exact Hs2. }
    rewrite Hvis, Ho1. unfold cleanup_calls. rewrite Hp1.
    change (onHide (with_visible true props)) with (onHide props).
    rewrite Hhide.
    destruct (popper (with_visible true props)); reflexivity.
Qed.

Lemma body_calls_no_onHide (r : Render) (w : World) :
  count Call_is_onHide (body_calls r w) = 0.
Proof.
  unfold body_calls.
  destruct (_visible r), (dropdownToggleRef w), (dropdownMenuRef w);
    try reflexivity.
  destruct (onShow (render_props r)), (popper (render_props r));
    reflexivity.
Qed.

(** The render that shows the panel also runs the cleanup that was
    pending since the hidden render, and that cleanup calls [onHide]. *)
Lemma show_runs_pending_cleanup (w : World) (props : CDropdownProps) :
  consistent w ->
  mounted w = true ->
  render_props (current w) = props ->
  visible props = false ->
  state_visible w = false ->
  onHide (render_props (effect_owner w)) = true ->
  count Call_is_onHide
    (emitted w (setProps isRTL (with_visible true props) w)) = 1.
Proof.
  intros Hc Hm Hp Hv Hs Hhide.
  assert (H1 : state_visible w <> visible (with_visible true props))
    by (rewrite Hs; discriminate).
  assert (H2 : visible (render_props (current w))
               <> visible (with_visible true props))
    by (rewrite Hp, Hv; discriminate).
  destruct (setProps_visible_changed (with_visible true props) w Hc Hm H1 H2)
    as (_ & _ & Hp1 & _ & He1).
  rewrite He1, count_app, body_calls_no_onHide.
  unfold cleanup_calls. rewrite Hhide.
  destruct (popper (render_props (effect_owner w))); reflexivity.
Qed.

End Visibility.

(** ** Listeners over the life of the component *)

Section Lifecycle.

Variable contains : Element -> Element -> bool.
Variable isRTL : option Element -> bool.

Lemma setVisible_false_hidden (w : World) :
  state_visible w = false -> setVisible isRTL false w = w.
Proof.
  intro H. rewrite <- H at 1. apply setVisible_same.
Qed.

(** No handler shows the panel. *)
Lemma dispatchEvent_keeps_hidden (event : Event) (w : World) :
  state_visible w = false ->
  state_visible (dispatchEvent contains isRTL event w) = false.
Proof.
  apply (dispatchEvent_preserves contains isRTL
           (fun w => state_visible w = false)).
  - intros w' H. rewrite setVisible_false_hidden; exact H.
  - intros n w' H. exact H.
Qed.

Lemma fireTimeout_keeps_hidden (w : World) :
  state_visible w = false -> state_visible (fireTimeout isRTL w) = false.
Proof.
  intro H. unfold fireTimeout. destruct (timeouts w); [exact H|].
  rewrite setVisible_false_hidden; exact H.
Qed.

Lemma unmount_state (w : World) :
  state_visible (unmount w) = state_visible w.
Proof.
  unfold unmount. destruct (negb (mounted w)); [reflexivity|]. simpl.
  apply effect_cleanup_frame.
Qed.

(** The step that shows the panel attaches the handlers of its render. *)
Lemma step_enter_attached (a : Action) (w : World) :
  consistent w ->
  state_visible w = false ->
  state_visible (step contains isRTL a w) = true ->
  is_some (dropdownToggleRef w) = true ->
  is_some (dropdownMenuRef w) = true ->
  attached (step contains isRTL a w).
Proof.
  intros Hc Hs Hs' Ht Hn.
  destruct a as [props | v | event | | toggle menu | ]; simpl in *.
  - unfold setProps in *. destruct (mounted w) eqn:Hm; simpl in *;
      [|congruence].
    destruct (setProps_render isRTL props w Hc) as [Hc1 E1].
    destruct (Bool.eqb (visible props) (visible (render_props (current w)))).
    + rewrite E1 in Hs'. simpl in Hs'. congruence.
    + rewrite E1 in *.
      set (w1 := set_current (CDropdown isRTL props w) w) in *.
      assert (Hv : visible props = true).
      { rewrite <- Hs'. symmetry. apply setVisible_state. exact Hm. }
      rewrite Hv.
      apply (setVisible_true_attached isRTL w1); assumption.
  - destruct (mounted w) eqn:Hm.
    + assert (Hv : v = true).
      { rewrite <- Hs'. symmetry. apply setVisible_state. exact Hm. }
      subst v. apply setVisible_true_attached; assumption.
    + rewrite setVisible_unmounted in Hs' by exact Hm. congruence.
  - rewrite dispatchEvent_keeps_hidden in Hs' by exact Hs. discriminate.
  - rewrite fireTimeout_keeps_hidden in Hs' by exact Hs. discriminate.
  - destruct (mounted w); simpl in Hs'; congruence.
  - rewrite unmount_state in Hs'. congruence.
Qed.

Lemma mount_shown_attached (props : CDropdownProps)
    (toggle menu : option Element) (listeners : list (EventType * Listener)) :
  forallb (fun entry => negb (is_own entry)) listeners = true ->
  visible props = true ->
  is_some toggle = true ->
  is_some menu = true ->
  attached (mount isRTL props toggle menu listeners).
Proof.
  intros Hf Hv Ht Hn. unfold attached, own_listeners.
  rewrite (mount_listeners isRTL props toggle menu listeners Hf), filter_app.
  rewrite (foreign_only _ Hf), Hv.
  destruct toggle, menu; try discriminate. reflexivity.
Qed.

(** C6: the handlers are attached when the panel is shown with toggle
    and menu in place, by the first commit or by a later step; and after
    any step that leaves the component hidden or unmounted, so after every
    exit from shown, none of its handlers is on [window], and an event on
    [window] changes nothing: no state, no call. *)
Theorem listeners_attached_and_removed :
  forall (w : World) (a : Action),
    reachable contains isRTL w ->
    (forall props toggle menu listeners,
        forallb (fun entry => negb (is_own entry)) listeners = true ->
        visible props = true ->
        is_some toggle = true ->
        is_some menu = true ->
        attached (mount isRTL props toggle menu listeners))
    /\ (state_visible w = false ->
        state_visible (step contains isRTL a w) = true ->
        is_some (dropdownToggleRef w) = true ->
        is_some (dropdownMenuRef w) = true ->
        attached (step contains isRTL a w))
    /\ (state_visible (step contains isRTL a w) = false
        \/ mounted (step contains isRTL a w) = false ->
        own_listeners (step contains isRTL a w) = []
        /\ forall event : Event,
             dispatchEvent contains isRTL event (step contains isRTL a w)
             = step contains isRTL a w).
Proof.
  intros w a Hr. apply reachable_consistent in Hr.
  split; [|split].
  - intros. apply mount_shown_attached; assumption.
  - apply step_enter_attached. exact Hr.
  - intro H.
    assert (Hown : own_listeners (step contains isRTL a w) = []).
    { destruct (step_consistent contains isRTL a w Hr)
        as [_ [Hnil | (Hm & Hs & _)]]; [exact Hnil|].
      destruct H; congruence. }
    split; [exact Hown|].
    intro event. apply dispatchEvent_no_listener. exact Hown.
Qed.

(** The listeners of other code stay on [window]. *)
Lemma unmount_foreign (w : World) :
  foreign_listeners (unmount w) = foreign_listeners w.
Proof.
  unfold unmount. destruct (negb (mounted w)); [reflexivity|].
  unfold foreign_listeners. simpl.
  apply (effect_cleanup_foreign (effect_owner w) w).
Qed.

(** ** Responsive alignment *)

Lemma body_calls_no_init (r : Render) (w : World) :
  popper (render_props r) = false ->
  count Call_is_initPopper (body_calls r w) = 0.
Proof.
  intro H. unfold body_calls. rewrite H.
  destruct (_visible r), (dropdownToggleRef w), (dropdownMenuRef w);
    try reflexivity.
  destruct (onShow (render_props r)); reflexivity.
Qed.

Lemma cleanup_calls_no_init (r : Render) :
  count Call_is_initPopper (cleanup_calls r) = 0.
Proof.
  unfold cleanup_calls.
  destruct (onHide (render_props r)), (popper (render_props r));
    reflexivity.
Qed.

Lemma object_disables_popper (props : CDropdownProps) :
  is_object (alignment props) = true -> popper props = false.
Proof. intro H. unfold popper. rewrite H. reflexivity. Qed.

Lemma render_commit_quiet (props : CDropdownProps) (w : World) :
  is_object (alignment props) = true ->
  count Call_is_initPopper (calls w) = 0 ->
  quiet (render_commit isRTL props w).
Proof.
  intros Hp Hq. split.
  - destruct (render_commit_frame isRTL props w)
      as (_ & _ & _ & _ & _ & _ & ->). exact Hp.
  - unfold render_commit. destruct (Bool.eqb _ _); [exact Hq|].
    simpl. rewrite effect_body_calls, effect_cleanup_calls, !count_app.
    rewrite body_calls_no_init, cleanup_calls_no_init; [exact Hq|].
    apply object_disables_popper. exact Hp.
Qed.

Lemma setVisible_quiet (v : bool) (w : World) :
  quiet w -> quiet (setVisible isRTL v w).
Proof.
  intros [Hp Hq]. unfold setVisible.
  destruct (negb (mounted w)); [split; assumption|].
  destruct (Bool.eqb v (state_visible w)); [split; assumption|].
  apply render_commit_quiet; assumption.
Qed.

Lemma step_quiet (a : Action) (w : World) :
  props_keep_responsive a -> quiet w -> quiet (step contains isRTL a w).
Proof.
  intros Ha H. destruct a as [props | v | event | | toggle menu | ];
    simpl in *.
  - unfold setProps. destruct (negb (mounted w)); [exact H|]. cbv zeta.
    assert (H1 : quiet (render_commit isRTL props w))
      by (apply render_commit_quiet; [exact Ha | apply H]).
    destruct (Bool.eqb _ _); [exact H1|].
    apply setVisible_quiet. exact H1.
  - apply setVisible_quiet. exact H.
  - apply dispatchEvent_preserves; [|intros n w' H'; exact H'|exact H].
    intros w'. apply setVisible_quiet.
  - unfold fireTimeout. destruct (timeouts w); [exact H|].
    apply setVisible_quiet. exact H.
  - destruct (mounted w); exact H.
  - unfold unmount. destruct (negb (mounted w)); [exact H|].
    destruct H as [Hp Hq]. split.
    + simpl.
      destruct (effect_cleanup_frame (effect_owner w) w)
        as (_ & _ & -> & _). exact Hp.
    + simpl. rewrite effect_cleanup_calls, count_app, cleanup_calls_no_init.
      exact Hq.
Qed.

Lemma run_quiet (acts : list Action) (w : World) :
  Forall props_keep_responsive acts ->
  quiet w -> quiet (run contains isRTL acts w).
Proof.
  intro Hf. revert w. induction Hf as [|a acts Ha _ IH]; intros w H.
  - exact H.
  - simpl. apply IH. apply step_quiet; assumption.
Qed.

Lemma mount_quiet (props : CDropdownProps) (toggle menu : option Element)
    (listeners : list (EventType * Listener)) :
  is_object (alignment props) = true ->
  quiet (mount isRTL props toggle menu listeners).
Proof.
  intro Hp. split.
  - destruct (mount_frame isRTL props toggle menu listeners)
      as (_ & _ & _ & -> & _). exact Hp.
  - rewrite mount_effects, effect_body_calls, count_app, body_calls_no_init.
    + reflexivity.
    + apply object_disables_popper. exact Hp.
Qed.

(** C10: with a responsive alignment object in the props of every render,
    [popper] is false whatever the caller passed, and through the whole
    life of the component, whatever happens to it, the positioning engine
    is never started. *)
Theorem responsive_alignment_never_inits_popper :
  forall (props : CDropdownProps) (toggle menu : option Element)
         (listeners : list (EventType * Listener)) (acts : list Action),
    is_object (alignment props) = true ->
    Forall props_keep_responsive acts ->
    popper props = false
    /\ count Call_is_initPopper
         (calls (run contains isRTL acts
                   (mount isRTL props toggle menu listeners))) = 0.
Proof.
  intros props toggle menu listeners acts Hp Hf. split.
  - apply object_disables_popper. exact Hp.
  - apply run_quiet; [exact Hf|]. apply mount_quiet. exact Hp.
Qed.

End Lifecycle.

(** ** The theorems on the small page *)

Lemma escape_closes_unless_never_witness :
  (mounted (shown_world ac_outside) = true
   /\ state_visible (shown_world ac_outside) = true
   /\ attached (shown_world ac_outside))
  /\ state_visible
       (dispatchEvent page_contains page_isRTL (KeyUp "Escape" 0)
          (shown_world ac_outside)) = false.
Proof.
  split; [repeat split|].
  destruct (escape_closes_unless_never page_contains page_isRTL
              (shown_world ac_outside)
              (effect_owner (shown_world ac_outside)) 0 eq_refl eq_refl)
    as (Hclose & _ & Hevent).
  rewrite Hevent by reflexivity. apply Hclose. discriminate.
Defined.

Lemma outside_release_closes_witness :
  (mounted (shown_world ac_outside) = true
   /\ state_visible (shown_world ac_outside) = true
   /\ dropdownToggleRef (shown_world ac_outside) = Some 1
   /\ dropdownMenuRef (shown_world ac_outside) = Some 2
   /\ attached (shown_world ac_outside))
  /\ dispatchEvent page_contains page_isRTL (MouseUp 12)
       (shown_world ac_outside) = shown_world ac_outside
  /\ state_visible
       (fireTimeout page_isRTL
          (dispatchEvent page_contains page_isRTL (MouseUp 5)
             (shown_world ac_outside))) = false.
Proof.
  split; [repeat split|]. split.
  - destruct (outside_release_closes page_contains page_isRTL
                (shown_world ac_outside)
                (effect_owner (shown_world ac_outside)) 1 2 12
                eq_refl eq_refl eq_refl eq_refl)
      as (Hinside & _ & Hevent).
    rewrite Hevent by reflexivity. apply Hinside; reflexivity.
  - destruct (outside_release_closes page_contains page_isRTL
                (shown_world ac_outside)
                (effect_owner (shown_world ac_outside)) 1 2 5
                eq_refl eq_refl eq_refl eq_refl)
      as (_ & Houtside & Hevent).
    rewrite Hevent by reflexivity.
    apply Houtside; [left|..]; reflexivity.
Defined.

Lemma release_on_toggle_or_unmounted_is_noop_witness :
  (exists toggle,
      dropdownToggleRef (shown_world (ac_bool true)) = Some toggle
      /\ page_contains toggle 11 = true)
  /\ dispatchEvent page_contains page_isRTL (MouseUp 11)
       (shown_world (ac_bool true)) = shown_world (ac_bool true).
Proof.
  assert (H : exists toggle,
             dropdownToggleRef (shown_world (ac_bool true)) = Some toggle
             /\ page_contains toggle 11 = true).
  { exists 1. split; reflexivity. }
  split; [exact H|].
  apply (release_on_toggle_or_unmounted_is_noop page_contains page_isRTL
           (shown_world (ac_bool true)) 11).
  right. right. exact H.
Defined.

Lemma visible_prop_mirrored_witness :
  (reachable page_contains page_isRTL hidden_world
   /\ mounted hidden_world = true
   /\ render_props (current hidden_world) = plain_props
   /\ visible plain_props = false
   /\ state_visible hidden_world = false
   /\ is_some (dropdownToggleRef hidden_world) = true
   /\ is_some (dropdownMenuRef hidden_world) = true
   /\ onShow plain_props = true
   /\ onHide plain_props = true)
  /\ (state_visible (setProps page_isRTL (with_visible true plain_props)
                       hidden_world) = true
      /\ count Call_is_onShow
           (emitted hidden_world
              (setProps page_isRTL (with_visible true plain_props)
                 hidden_world)) = 1)
  /\ (state_visible
        (setProps page_isRTL (with_visible false plain_props)
           (setProps page_isRTL (with_visible true plain_props)
              hidden_world)) = false
      /\ count Call_is_onHide
           (emitted
              (setProps page_isRTL (with_visible true plain_props)
                 hidden_world)
              (setProps page_isRTL (with_visible false plain_props)
                 (setProps page_isRTL (with_visible true plain_props)
                    hidden_world))) = 1).
Proof.
  split.
  - split; [apply reachable_mount; reflexivity|]. repeat split.
  - apply (visible_prop_mirrored page_contains page_isRTL
             hidden_world plain_props);
      try reflexivity.
    apply reachable_mount. reflexivity.
Defined.

Lemma listeners_attached_and_removed_witness :
  (reachable page_contains page_isRTL hidden_world
   /\ attached (step page_contains page_isRTL (SetVisible true) hidden_world))
  /\ reachable page_contains page_isRTL (shown_world (ac_bool true))
  /\ mounted (step page_contains page_isRTL Unmount
                (shown_world (ac_bool true))) = false
  /\ own_listeners
       (step page_contains page_isRTL Unmount (shown_world (ac_bool true)))
     = []
  /\ dispatchEvent page_contains page_isRTL (KeyUp "Escape" 0)
       (step page_contains page_isRTL Unmount (shown_world (ac_bool true)))
     = step page_contains page_isRTL Unmount (shown_world (ac_bool true)).
Proof.
  assert (Hh : reachable page_contains page_isRTL hidden_world)
    by (apply reachable_mount; reflexivity).
  assert (Hr : reachable page_contains page_isRTL (shown_world (ac_bool true)))
    by (apply reachable_mount; reflexivity).
  split.
  - split; [exact Hh|].
    destruct (listeners_attached_and_removed page_contains page_isRTL
                hidden_world (SetVisible true) Hh) as (_ & Henter & _).
    apply Henter; reflexivity.
  - destruct (listeners_attached_and_removed page_contains page_isRTL
                (shown_world (ac_bool true)) Unmount Hr) as (_ & _ & H).
    destruct (H (or_intror eq_refl)) as [Hown Hd].
    split; [exact Hr|]. split; [reflexivity|]. split; [exact Hown|]. apply Hd.
Defined.

Lemma responsive_alignment_never_inits_popper_witness :
  (is_object (alignment responsive_props) = true
   /\ Forall props_keep_responsive
        [SetProps (with_visible true responsive_props);
         Dispatch (KeyUp "Escape" 0); SetVisible true; Unmount])
  /\ popper responsive_props = false
  /\ count Call_is_initPopper
       (calls
          (run page_contains page_isRTL
             [SetProps (with_visible true responsive_props);
              Dispatch (KeyUp "Escape" 0); SetVisible true; Unmount]
             (mount page_isRTL responsive_props (Some 1) (Some 2) []))) = 0.
Proof.
  assert (Hf : Forall props_keep_responsive
                 [SetProps (with_visible true responsive_props);
                  Dispatch (KeyUp "Escape" 0); SetVisible true; Unmount]).
  { repeat constructor. }
  split; [split; [reflexivity | exact Hf]|].
  apply (responsive_alignment_never_inits_popper page_contains page_isRTL
           responsive_props (Some 1) (Some 2) [] _ eq_refl Hf).
Defined.

Lemma getPlacement_range_witness :
  getPlacement p_auto (Some dropend) None true <> p_auto
  /\ In (getPlacement p_auto (Some dropend) None true) rule_placements.
Proof.
  destruct (getPlacement_range p_auto (Some dropend) None true)
    as ([H | H] & _).
  - discriminate H.
  - split; [discriminate | exact H].
Defined.

(** C5, as stated, fails: on a dropdown without a toggle, rendering with
    [visible = true] shows the panel and does not call [onShow]. *)
Lemma onShow_skipped_without_toggle :
  reachable page_contains page_isRTL toggleless_world
  /\ mounted toggleless_world = true
  /\ state_visible toggleless_world = false
  /\ onShow plain_props = true
  /\ state_visible
       (setProps page_isRTL (with_visible true plain_props) toggleless_world)
     = true
  /\ count Call_is_onShow
       (emitted toggleless_world
          (setProps page_isRTL (with_visible true plain_props)
             toggleless_world)) = 0.
Proof. split; [apply reachable_mount; reflexivity | repeat split]. Qed.

(** * Further properties *)

(** ** The placement resolver *)

(** X1: whenever a rule applies, the requested placement plays no part in
    the result. *)
Theorem getPlacement_ignores_request :
  forall (placement placement' : Placements) (direction : option Direction)
         (alignment : option Alignments) (isRTL : bool),
    has_direction_rule direction = true
    \/ alignment = Some (align dir_end) ->
    getPlacement placement direction alignment isRTL
    = getPlacement placement' direction alignment isRTL.
Proof.
  intros placement placement' direction alignment isRTL H.
  destruct (alignment_is alignment dir_end) eqn:E.
  - apply alignment_is_end in E. subst alignment. reflexivity.
  - assert (Ha : alignment <> Some (align dir_end)).
    { intro Ha. apply alignment_is_end in Ha. congruence. }
    destruct H as [H | H]; [|contradiction].
    rewrite !(getPlacement_by_direction _ _ _ _ Ha).
    destruct direction as [[]|]; try discriminate H; reflexivity.
Qed.

Lemma getPlacement_ignores_request_witness :
  getPlacement p_left_end (Some dropend) (Some (align dir_start)) true
  = getPlacement p_auto (Some dropend) (Some (align dir_start)) true.
Proof.
  apply (getPlacement_ignores_request p_left_end p_auto (Some dropend)
           (Some (align dir_start)) true).
  left. reflexivity.
Defined.

(** X2: without alignment 'end', 'dropend' read right-to-left is
    'dropstart' read left-to-right, and the other way round. *)
Theorem getPlacement_dropend_is_mirrored_dropstart :
  forall (placement : Placements) (alignment : option Alignments)
         (isRTL : bool),
    alignment <> Some (align dir_end) ->
    getPlacement placement (Some dropend) alignment isRTL
    = getPlacement placement (Some dropstart) alignment (negb isRTL).
Proof.
  intros placement alignment isRTL Ha.
  rewrite !(getPlacement_by_direction _ _ _ _ Ha).
  destruct isRTL; reflexivity.
Qed.

Lemma getPlacement_dropend_is_mirrored_dropstart_witness :
  getPlacement p_bottom (Some dropend) None true
  = getPlacement p_bottom (Some dropstart) None (negb true).
Proof.
  apply (getPlacement_dropend_is_mirrored_dropstart p_bottom None true).
  discriminate.
Defined.

(** X3: the right-to-left flag changes the result exactly when alignment
    is 'end' or direction is 'dropup', 'dropend' or 'dropstart'; with
    'dropup-center', 'center' or no direction, and with a requested
    placement that no rule replaces, it has no effect. *)
Theorem getPlacement_rtl_sensitive :
  forall (placement : Placements) (direction : option Direction)
         (alignment : option Alignments),
    getPlacement placement direction alignment true
    <> getPlacement placement direction alignment false
    <-> (alignment = Some (align dir_end)
         \/ direction = Some dropup
         \/ direction = Some dropend
         \/ direction = Some dropstart).
Proof.
  intros placement direction alignment.
  destruct (alignment_is alignment dir_end) eqn:E.
  - apply alignment_is_end in E. subst alignment.
    rewrite !getPlacement_align_end. split; [auto | discriminate].
  - assert (Ha : alignment <> Some (align dir_end)).
    { intro Ha. apply alignment_is_end in Ha. congruence. }
    rewrite !(getPlacement_by_direction _ _ _ _ Ha).
    destruct direction as [[]|]; split;
      try discriminate; try (intro H; exfalso; apply H; reflexivity);
      try (intros _; auto; fail);
      intros [H | [H | [H | H]]]; congruence.
Qed.

(** X4: an alignment counts only when it is the string 'end': 'start', a
    responsive object and no alignment all give the same result. *)
Theorem getPlacement_alignment_only_end :
  forall (placement : Placements) (direction : option Direction)
         (alignment : option Alignments) (isRTL : bool),
    alignment <> Some (align dir_end) ->
    getPlacement placement direction alignment isRTL
    = getPlacement placement direction None isRTL.
Proof.
  intros placement direction alignment isRTL Ha.
  rewrite !getPlacement_by_direction; [reflexivity | discriminate | exact Ha].
Qed.

Lemma getPlacement_alignment_only_end_witness :
  getPlacement p_left (Some dropup) (Some (responsive (xxl dir_end))) true
  = getPlacement p_left (Some dropup) None true.
Proof.
  apply (getPlacement_alignment_only_end p_left (Some dropup)
           (Some (responsive (xxl dir_end))) true).
  discriminate.
Defined.

(** ** Handlers and events *)

Section MoreEvents.

Variable contains : Element -> Element -> bool.
Variable isRTL : option Element -> bool.

(** X5: handlers that closed over [autoClose = false] ignore every event
    on [window], pointer or key. *)
Theorem autoClose_false_ignores_events :
  forall (w : World) (event : Event),
    attached w ->
    autoClose (render_props (effect_owner w)) = ac_bool false ->
    dispatchEvent contains isRTL event w = w.
Proof.
  intros w event Ha Hf. unfold attached in Ha.
  rewrite dispatchEvent_own, Ha. destruct event as [target | key target]; simpl.
  - unfold handleMouseUp. rewrite Hf.
    destruct (dropdownToggleRef w), (dropdownMenuRef w); try reflexivity.
    destruct (contains _ _); reflexivity.
  - unfold handleKeyup. rewrite Hf. reflexivity.
Qed.

(** X6: while the panel is shown with toggle and menu in place, a pointer
    release inside the menu and outside the toggle schedules the dismissal
    under auto-close mode [true] or 'inside', and the panel is hidden once
    the timeout has fired; under 'inside' a release outside the menu
    changes nothing. *)
Theorem inside_release_closes :
  forall (w : World) (r : Render) (toggle menu target : Element),
    mounted w = true ->
    dropdownToggleRef w = Some toggle ->
    dropdownMenuRef w = Some menu ->
    (autoClose (render_props r) = ac_inside
     \/ autoClose (render_props r) = ac_bool true ->
     contains toggle target = false ->
     contains menu target = true ->
     timeouts (handleMouseUp contains r (MouseUp target) w) = S (timeouts w)
     /\ state_visible
          (fireTimeout isRTL (handleMouseUp contains r (MouseUp target) w))
        = false)
    /\ (autoClose (render_props r) = ac_inside ->
        contains menu target = false ->
        handleMouseUp contains r (MouseUp target) w = w).
Proof.
  intros w r toggle menu target Hm Ht Hn.
  unfold handleMouseUp. rewrite Ht, Hn. simpl. split.
  - intros H Hout Hin. rewrite Hout, Hin.
    assert (E : AutoClose_eqb (autoClose (render_props r)) (ac_bool true)
                || AutoClose_eqb (autoClose (render_props r)) ac_inside
                   && true
                || AutoClose_eqb (autoClose (render_props r)) ac_outside
                   && negb true = true).
    { destruct H as [-> | ->]; reflexivity. }
    rewrite E. split; [reflexivity|].
    unfold fireTimeout. simpl. apply setVisible_state. exact Hm.
  - intros H Hout. rewrite H, Hout. simpl.
    destruct (contains toggle target); reflexivity.
Qed.

(** X7: a pointer release never hides the panel itself: whatever is
    attached, the event leaves the state, the calls and the listeners as
    they were, and can only add pending timeouts. *)
Theorem pointer_release_only_schedules :
  forall (w : World) (target : Element),
    state_visible (dispatchEvent contains isRTL (MouseUp target) w)
    = state_visible w
    /\ calls (dispatchEvent contains isRTL (MouseUp target) w) = calls w
    /\ window_listeners (dispatchEvent contains isRTL (MouseUp target) w)
       = window_listeners w
    /\ timeouts w <= timeouts (dispatchEvent contains isRTL (MouseUp target) w).
Proof.
  intros w target. unfold dispatchEvent.
  apply (fold_left_invariant
           (fun w' => state_visible w' = state_visible w
                      /\ calls w' = calls w
                      /\ window_listeners w' = window_listeners w
                      /\ timeouts w <= timeouts w'));
    [|repeat split; auto].
  intros w' [ty f] H. simpl.
  destruct (EventType_eqb ty mouseup); [|exact H].
  destruct f as [r | r | n]; simpl; [| |exact H].
  - unfold handleMouseUp.
    destruct (dropdownToggleRef w'), (dropdownMenuRef w'); try exact H.
    destruct (contains _ _); [exact H|].
    destruct (_ || _); [|exact H].
    simpl. destruct H as (Hs & Hc & Hl & Ht). repeat split; auto.
  - unfold handleKeyup. simpl.
    destruct (AutoClose_eqb _ _); exact H.
Qed.

(** X8: on a reachable world a released key other than Escape changes
    nothing, and no key event schedules a timeout. *)
Theorem other_keys_ignored :
  forall (w : World) (key : string) (target : Element),
    reachable contains isRTL w ->
    (key <> "Escape"%string ->
     dispatchEvent contains isRTL (KeyUp key target) w = w)
    /\ timeouts (dispatchEvent contains isRTL (KeyUp key target) w)
       = timeouts w.
Proof.
  intros w key target Hr. apply reachable_consistent in Hr.
  destruct Hr as [_ [Hnil | (_ & _ & Ha)]].
  - rewrite dispatchEvent_no_listener by exact Hnil. auto.
  - rewrite (dispatchEvent_keyup_attached contains isRTL _ _ w Ha).
    unfold handleKeyup. simpl. split.
    + intro Hk. apply String.eqb_neq in Hk. rewrite Hk.
      destruct (AutoClose_eqb _ _); reflexivity.
    + destruct (AutoClose_eqb _ _); [reflexivity|].
      destruct (String.eqb key "Escape"); [|reflexivity].
      apply setVisible_frame.
Qed.

(** *** Listeners of other code *)

Lemma addEventListener_foreign (ty : EventType) (f : Listener) (w : World) :
  is_own (ty, f) = true ->
  foreign_listeners (addEventListener ty f w) = foreign_listeners w.
Proof.
  intro H. unfold addEventListener, foreign_listeners.
  destruct (existsb _ _); [reflexivity|]. simpl.
  rewrite filter_app. simpl. rewrite H. simpl. apply app_nil_r.
Qed.

Lemma effect_body_foreign (r : Render) (w : World) :
  foreign_listeners (effect_body r w) = foreign_listeners w.
Proof.
  unfold effect_body.
  destruct (_visible r), (dropdownToggleRef w), (dropdownMenuRef w);
    try reflexivity.
  assert (E : forall w', foreign_listeners w' = foreign_listeners w ->
            foreign_listeners
              (addEventListener keyup (handleKeyup_of r)
                 (addEventListener mouseup (handleMouseUp_of r) w'))
            = foreign_listeners w).
  { intros w' Hw'. rewrite !addEventListener_foreign by reflexivity.
    exact Hw'. }
  destruct (popper (render_props r)), (onShow (render_props r));
    unfold foreign_listeners at 1; simpl; apply E; reflexivity.
Qed.

Lemma render_commit_foreign (props : CDropdownProps) (w : World) :
  foreign_listeners (render_commit isRTL props w) = foreign_listeners w.
Proof.
  unfold render_commit. destruct (Bool.eqb _ _); [reflexivity|].
  change (foreign_listeners (set_owner ?r ?x)) with (foreign_listeners x).
  rewrite effect_body_foreign, effect_cleanup_foreign. reflexivity.
Qed.

Lemma setVisible_foreign (v : bool) (w : World) :
  foreign_listeners (setVisible isRTL v w) = foreign_listeners w.
Proof.
  unfold setVisible. destruct (negb (mounted w)); [reflexivity|].
  destruct (Bool.eqb v (state_visible w)); [reflexivity|].
  rewrite render_commit_foreign. reflexivity.
Qed.

Lemma step_foreign (a : Action) (w : World) :
  foreign_listeners (step contains isRTL a w) = foreign_listeners w.
Proof.
  destruct a as [props | v | event | | toggle menu | ]; simpl.
  - unfold setProps. destruct (negb (mounted w)); [reflexivity|]. cbv zeta.
    destruct (Bool.eqb _ _);
      rewrite ?setVisible_foreign; apply render_commit_foreign.
  - apply setVisible_foreign.
  - apply (dispatchEvent_preserves contains isRTL
             (fun w' => foreign_listeners w' = foreign_listeners w)).
    + intros w' H. rewrite setVisible_foreign. exact H.
    + intros n w' H. exact H.
    + reflexivity.
  - unfold fireTimeout. destruct (timeouts w); [reflexivity|].
    rewrite setVisible_foreign. reflexivity.
  - destruct (mounted w); reflexivity.
  - apply unmount_foreign.
Qed.

(** X14: whatever happens to the component, the listeners that other code
    has on [window] stay registered, in their order. *)
Theorem foreign_listeners_untouched :
  forall (acts : list Action) (w : World),
    foreign_listeners (run contains isRTL acts w) = foreign_listeners w.
Proof.
  induction acts as [|a acts IH]; intro w; simpl; [reflexivity|].
  rewrite IH. apply step_foreign.
Qed.

End MoreEvents.

(** ** Showing, hiding, mounting and unmounting *)

Section MoreLifecycle.

Variable contains : Element -> Element -> bool.
Variable isRTL : option Element -> bool.

(** Hiding a shown component runs the pending cleanup and nothing else. *)
Lemma hide_runs_cleanup (w : World) :
  consistent w ->
  mounted w = true ->
  state_visible w = true ->
  state_visible (setVisible isRTL false w) = false
  /\ own_listeners (setVisible isRTL false w) = []
  /\ calls (setVisible isRTL false w)
     = cleanup_calls (effect_owner w) ++ calls w.
Proof.
  intros Hc Hm Hs.
  assert (E : state_visible w <> false) by congruence.
  split; [apply setVisible_state; exact Hm|]. split.
  - rewrite (setVisible_change_own isRTL false w Hc Hm E). reflexivity.
  - destruct Hc as [Hcur _].
    rewrite (setVisible_change_calls isRTL false w Hm E Hcur). reflexivity.
Qed.

(** X9: every dismissal of a shown panel, by the Escape key or by a fired
    timeout, runs the pending cleanup exactly once and nothing else: the
    panel is hidden, the component's listeners are gone, and the calls made
    are those of the cleanup. *)
Theorem dismissal_runs_cleanup_once :
  forall (w : World) (target : Element),
    reachable contains isRTL w ->
    mounted w = true ->
    state_visible w = true ->
    (attached w ->
     autoClose (render_props (effect_owner w)) <> ac_bool false ->
     state_visible (dispatchEvent contains isRTL (KeyUp "Escape" target) w)
     = false
     /\ own_listeners (dispatchEvent contains isRTL (KeyUp "Escape" target) w)
        = []
     /\ emitted w (dispatchEvent contains isRTL (KeyUp "Escape" target) w)
        = cleanup_calls (effect_owner w))
    /\ (timeouts w <> 0 ->
        state_visible (fireTimeout isRTL w) = false
        /\ own_listeners (fireTimeout isRTL w) = []
        /\ emitted w (fireTimeout isRTL w) = cleanup_calls (effect_owner w)).
Proof.
  intros w target Hr Hm Hs. apply reachable_consistent in Hr. split.
  - intros Ha Hmode.
    rewrite (dispatchEvent_keyup_attached contains isRTL _ _ w Ha).
    unfold handleKeyup. rewrite (AutoClose_eqb_neq _ _ Hmode). simpl.
    destruct (hide_runs_cleanup w Hr Hm Hs) as (H1 & H2 & H3).
    repeat split; [exact H1 | exact H2 | apply emitted_app; exact H3].
  - intro Ht. unfold fireTimeout.
    destruct (timeouts w) as [|n]; [congruence|].
    destruct (hide_runs_cleanup (set_timeouts n w) Hr Hm Hs) as (H1 & H2 & H3).
    repeat split; [exact H1 | exact H2 | apply emitted_app; exact H3].
Qed.

(** X10: a render that leaves [visible] as it was runs no effect: no call
    is made, and the listeners on [window] stay those of the render that
    attached them, so events are still handled with the props of that
    earlier render. *)
Theorem rerender_keeps_handlers :
  forall (w : World) (props : CDropdownProps),
    reachable contains isRTL w ->
    mounted w = true ->
    visible props = visible (render_props (current w)) ->
    (calls (setProps isRTL props w) = calls w
     /\ window_listeners (setProps isRTL props w) = window_listeners w
     /\ state_visible (setProps isRTL props w) = state_visible w
     /\ render_props (current (setProps isRTL props w)) = props)
    /\ (attached w ->
        forall (key : string) (target : Element),
          dispatchEvent contains isRTL (KeyUp key target)
            (setProps isRTL props w)
          = handleKeyup isRTL (effect_owner w) (KeyUp key target)
              (setProps isRTL props w)
          /\ dispatchEvent contains isRTL (MouseUp target)
               (setProps isRTL props w)
             = handleMouseUp contains (effect_owner w) (MouseUp target)
                 (setProps isRTL props w)).
Proof.
  intros w props Hr Hm Hv. apply reachable_consistent in Hr.
  assert (E : setProps isRTL props w
              = set_current (CDropdown isRTL props w) w).
  { unfold setProps. rewrite Hm, Hv, Bool.eqb_reflx. simpl.
    apply render_commit_same. apply Hr. }
  rewrite E. split; [repeat split|].
  intros Ha key target. split.
  - apply (dispatchEvent_keyup_attached contains isRTL key target
             (set_current (CDropdown isRTL props w) w) Ha).
  - apply (dispatchEvent_mouseup_attached contains isRTL target
             (set_current (CDropdown isRTL props w) w) Ha).
Qed.

Lemma count_cleanup_onShow (r : Render) :
  count Call_is_onShow (cleanup_calls r) = 0.
Proof.
  unfold cleanup_calls.
  destruct (onHide (render_props r)), (popper (render_props r)); reflexivity.
Qed.

(** X11: showing a hidden dropdown that has toggle, menu and positioning
    enabled starts the engine exactly once, on the toggle and the menu,
    with the offset of the props and the placement that [getPlacement]
    resolves from the props and from [isRTL] of the menu. *)
Theorem show_starts_engine_once :
  forall (w : World) (toggle menu : Element),
    reachable contains isRTL w ->
    mounted w = true ->
    state_visible w = false ->
    dropdownToggleRef w = Some toggle ->
    dropdownMenuRef w = Some menu ->
    popper (render_props (current w)) = true ->
    count Call_is_initPopper (emitted w (setVisible isRTL true w)) = 1
    /\ In (initPopper toggle menu
             (config_of (render_props (current w)) (isRTL (Some menu))))
          (emitted w (setVisible isRTL true w)).
Proof.
  intros w toggle menu Hr Hm Hs Ht Hn Hp. apply reachable_consistent in Hr.
  assert (E : state_visible w <> true) by congruence.
  destruct Hr as [Hcur _].
  pose proof (setVisible_change_calls isRTL true w Hm E Hcur) as Hcalls.
  rewrite app_assoc in Hcalls. rewrite (emitted_app _ _ _ Hcalls).
  unfold body_calls. simpl. rewrite Ht, Hn, Hp. split.
  - rewrite !count_app, cleanup_calls_no_init.
    destruct (onShow (render_props (current w))); reflexivity.
  - apply in_or_app. left. apply in_or_app. right.
    left. unfold popperConfig, config_of. simpl. rewrite Hn. reflexivity.
Qed.

(** X12: a dropdown mounted shown, with toggle and menu, makes the calls
    of the effect only, and its placement is resolved by the first render,
    when the menu ref is still null: [isRTL] is asked about no element. *)
Theorem mount_shown_calls :
  forall (props : CDropdownProps) (toggle menu : Element)
         (listeners : list (EventType * Listener)),
    visible props = true ->
    calls (mount isRTL props (Some toggle) (Some menu) listeners)
    = (if onShow props then [onShow_call] else [])
      ++ (if popper props
          then [initPopper toggle menu (config_of props (isRTL None))]
          else []).
Proof.
  intros props toggle menu listeners Hv.
  rewrite mount_effects, effect_body_calls. unfold body_calls. simpl.
  rewrite Hv. apply app_nil_r.
Qed.

(** X15: a dropdown mounted hidden, or without its toggle or its menu,
    makes no call and leaves the listeners of [window] as they are. *)
Theorem mount_silent :
  forall (props : CDropdownProps) (toggle menu : option Element)
         (listeners : list (EventType * Listener)),
    visible props = false \/ toggle = None \/ menu = None ->
    calls (mount isRTL props toggle menu listeners) = []
    /\ window_listeners (mount isRTL props toggle menu listeners) = listeners
    /\ state_visible (mount isRTL props toggle menu listeners)
       = visible props.
Proof.
  intros props toggle menu listeners H.
  rewrite mount_effects. unfold effect_body, committed, first_render. simpl.
  destruct H as [H | [H | H]].
  - rewrite H. repeat split.
  - subst toggle. destruct (visible props); repeat split.
  - subst menu. destruct (visible props), toggle; repeat split.
Qed.

(** X18: when the toggle or the menu is missing as the panel is shown, no
    listener is attached and [onShow] is not called; the elements arriving
    later attach none either, so events on [window] stay without effect. *)
Theorem late_elements_get_no_listeners :
  forall (w : World) (toggle menu : option Element) (event : Event),
    reachable contains isRTL w ->
    mounted w = true ->
    state_visible w = false ->
    dropdownToggleRef w = None \/ dropdownMenuRef w = None ->
    state_visible
      (step contains isRTL (SetRefs toggle menu) (setVisible isRTL true w))
    = true
    /\ own_listeners
         (step contains isRTL (SetRefs toggle menu) (setVisible isRTL true w))
       = []
    /\ count Call_is_onShow
         (emitted w
            (step contains isRTL (SetRefs toggle menu)
               (setVisible isRTL true w))) = 0
    /\ dispatchEvent contains isRTL event
         (step contains isRTL (SetRefs toggle menu) (setVisible isRTL true w))
       = step contains isRTL (SetRefs toggle menu) (setVisible isRTL true w).
Proof.
  intros w toggle menu event Hr Hm Hs Hnone.
  apply reachable_consistent in Hr.
  assert (E : state_visible w <> true) by congruence.
  assert (Hown : own_listeners (setVisible isRTL true w) = []).
  { rewrite (setVisible_change_own isRTL true w Hr Hm E).
    destruct Hnone as [-> | ->]; [reflexivity|].
    destruct (dropdownToggleRef w); reflexivity. }
  destruct (setVisible_frame isRTL true w) as (Hm' & _).
  simpl. rewrite Hm', Hm.
  split; [apply setVisible_state; exact Hm|].
  split; [exact Hown|]. split.
  - destruct Hr as [Hcur _].
    pose proof (setVisible_change_calls isRTL true w Hm E Hcur) as Hcalls.
    rewrite app_assoc in Hcalls.
    change (emitted w (set_refs toggle menu (setVisible isRTL true w)))
      with (emitted w (setVisible isRTL true w)).
    rewrite (emitted_app _ _ _ Hcalls), count_app, count_cleanup_onShow.
    unfold body_calls. simpl.
    destruct Hnone as [-> | ->]; [reflexivity|].
    destruct (dropdownToggleRef w); reflexivity.
  - apply dispatchEvent_no_listener. exact Hown.
Qed.

End MoreLifecycle.

(** ** The positioning engine and the end of the component *)

Section Engine.

Variable contains : Element -> Element -> bool.
Variable isRTL : option Element -> bool.

(** After the cleanup the engine is stopped. *)
Lemma engine_after_cleanup (r : Render) (l : list Call) :
  (engine_running l = true -> popper (render_props r) = true) ->
  engine_running (cleanup_calls r ++ l) = false
  /\ engine_exclusive (cleanup_calls r ++ l) = engine_exclusive l.
Proof.
  intro H. unfold cleanup_calls.
  destruct (popper (render_props r)), (onHide (render_props r)); simpl;
    try (split; reflexivity);
    (split; [|reflexivity]);
    destruct (engine_running l); [|reflexivity| |reflexivity];
    discriminate (H eq_refl).
Qed.

(** The effect starts a stopped engine at most once. *)
Lemma engine_after_body (r : Render) (w : World) (l : list Call) :
  engine_running l = false ->
  engine_exclusive l = true ->
  engine_exclusive (body_calls r w ++ l) = true
  /\ (engine_running (body_calls r w ++ l) = true ->
      _visible r = true /\ popper (render_props r) = true).
Proof.
  intros Hrun Hex. unfold body_calls.
  destruct (_visible r), (dropdownToggleRef w), (dropdownMenuRef w); simpl;
    try (split; [exact Hex | rewrite Hrun; discriminate]).
  destruct (onShow (render_props r)), (popper (render_props r)); simpl;
    rewrite ?Hrun, ?Hex; split; auto; discriminate.
Qed.

Lemma setVisible_engine (v : bool) (w : World) :
  consistent w -> engine_owned w -> engine_owned (setVisible isRTL v w).
Proof.
  intros Hc He.
  destruct (mounted w) eqn:Hm;
    [|rewrite setVisible_unmounted by assumption; exact He].
  destruct (Bool.bool_dec (state_visible w) v) as [E | E].
  { subst v. rewrite setVisible_same. exact He. }
  destruct He as [Hex Hrun]. unfold engine_owned.
  destruct Hc as [Hcur _].
  rewrite (setVisible_change_calls isRTL v w Hm E Hcur).
  destruct (engine_after_cleanup (effect_owner w) (calls w)) as [Hr1 He1].
  { intro H. apply Hrun. exact H. }
  rewrite Hex in He1.
  destruct (engine_after_body
              (CDropdown isRTL (render_props (current w)) (set_state v w))
              w _ Hr1 He1) as [He2 Hr2].
  split; [exact He2|].
  intro H. destruct (Hr2 H) as [Hv Hp]. simpl in Hv.
  destruct (setVisible_frame isRTL v w) as (-> & _).
  rewrite (setVisible_state isRTL v w Hm).
  rewrite (setVisible_change isRTL v w Hm E Hcur). simpl. auto.
Qed.

Lemma step_engine (a : Action) (w : World) :
  consistent w -> engine_owned w ->
  engine_owned (step contains isRTL a w).
Proof.
  intros Hc He. destruct a as [props | v | event | | toggle menu | ]; simpl.
  - unfold setProps. destruct (negb (mounted w)); [exact He|]. cbv zeta.
    destruct (setProps_render isRTL props w Hc) as [Hc1 E1].
    assert (He1 : engine_owned (render_commit isRTL props w))
      by (rewrite E1; exact He).
    destruct (Bool.eqb _ _); [exact He1|].
    apply setVisible_engine; assumption.
  - apply setVisible_engine; assumption.
  - apply (dispatchEvent_preserves contains isRTL
             (fun w' => consistent w' /\ engine_owned w')).
    + intros w' [Hc' He']. split.
      * apply setVisible_consistent. exact Hc'.
      * apply setVisible_engine; assumption.
    + intros n w' H. exact H.
    + split; assumption.
  - unfold fireTimeout. destruct (timeouts w); [exact He|].
    apply setVisible_engine; assumption.
  - destruct (mounted w); exact He.
  - unfold unmount. destruct (negb (mounted w)); [exact He|].
    destruct He as [Hex Hrun]. unfold engine_owned. simpl.
    rewrite effect_cleanup_calls.
    destruct (engine_after_cleanup (effect_owner w) (calls w)) as [Hr1 He1].
    { intro H. apply Hrun. exact H. }
    rewrite Hr1, He1. split; [exact Hex | discriminate].
Qed.

Lemma mount_engine (props : CDropdownProps) (toggle menu : option Element)
    (listeners : list (EventType * Listener)) :
  engine_owned (mount isRTL props toggle menu listeners).
Proof.
  unfold engine_owned.
  destruct (mount_frame isRTL props toggle menu listeners)
    as (Hm & Hs & _).
  rewrite Hm, Hs, mount_effects, effect_body_calls.
  destruct (effect_body_frame (first_render isRTL props)
              (committed isRTL props toggle menu listeners))
    as (_ & _ & _ & _ & _ & _ & -> & _).
  destruct (engine_after_body (first_render isRTL props)
              (committed isRTL props toggle menu listeners) []
              eq_refl eq_refl) as [He Hr].
  split; [exact He|]. intro H. destruct (Hr H) as [Hv Hp]. auto.
Qed.

Lemma reachable_engine (w : World) :
  reachable contains isRTL w -> engine_owned w.
Proof.
  induction 1 as [props toggle menu listeners Hf | a w Hr IH].
  - apply mount_engine.
  - apply step_engine; [apply (reachable_consistent _ _ _ Hr) | exact IH].
Qed.

(** X13: through the whole life of a component, [initPopper] is never
    called while the engine is running, and the engine is not running
    whenever the component is hidden or unmounted: every start is followed
    by [destroyPopper] at the exit from shown. *)
Theorem engine_started_and_destroyed :
  forall (w : World),
    reachable contains isRTL w ->
    engine_exclusive (calls w) = true
    /\ (state_visible w = false \/ mounted w = false ->
        engine_running (calls w) = false).
Proof.
  intros w Hr. destruct (reachable_engine w Hr) as [Hex Hrun].
  split; [exact Hex|]. intro H.
  destruct (engine_running (calls w)); [|reflexivity].
  destruct (Hrun eq_refl) as (Hm & Hs & _). destruct H; congruence.
Qed.

(** *** After unmount *)

Lemma dead_step (a : Action) (w : World) :
  mounted w = false ->
  own_listeners w = [] ->
  mounted (step contains isRTL a w) = false
  /\ own_listeners (step contains isRTL a w) = []
  /\ calls (step contains isRTL a w) = calls w
  /\ state_visible (step contains isRTL a w) = state_visible w.
Proof.
  intros Hm Hown. destruct a as [props | v | event | | toggle menu | ]; simpl.
  - unfold setProps. rewrite Hm. auto.
  - rewrite setVisible_unmounted by exact Hm. auto.
  - rewrite dispatchEvent_no_listener by exact Hown. auto.
  - unfold fireTimeout. destruct (timeouts w); [auto|].
    rewrite setVisible_unmounted by exact Hm. auto.
  - rewrite Hm. auto.
  - unfold unmount. rewrite Hm. auto.
Qed.

Lemma dead_run (acts : list Action) (w : World) :
  mounted w = false ->
  own_listeners w = [] ->
  mounted (run contains isRTL acts w) = false
  /\ own_listeners (run contains isRTL acts w) = []
  /\ calls (run contains isRTL acts w) = calls w
  /\ state_visible (run contains isRTL acts w) = state_visible w.
Proof.
  revert w. induction acts as [|a acts IH]; intros w Hm Hown; simpl; [auto|].
  destruct (dead_step a w Hm Hown) as (Hm' & Hown' & Hc' & Hs').
  destruct (IH _ Hm' Hown') as (H1 & H2 & H3 & H4).
  rewrite H3, H4, Hc', Hs'. auto.
Qed.

(** X16: unmounting runs the pending cleanup, shown or hidden: its calls
    are [onHide] and [destroyPopper] as the owning render had them; and
    after that nothing that happens, no event, no pending timeout, no late
    render, makes the component call anything or register a listener. *)
Theorem unmount_is_final :
  forall (w : World) (acts : list Action),
    reachable contains isRTL w ->
    mounted w = true ->
    emitted w (unmount w) = cleanup_calls (effect_owner w)
    /\ own_listeners (run contains isRTL acts (unmount w)) = []
    /\ calls (run contains isRTL acts (unmount w)) = calls (unmount w)
    /\ mounted (run contains isRTL acts (unmount w)) = false.
Proof.
  intros w acts Hr Hm. apply reachable_consistent in Hr.
  assert (Hm' : mounted (unmount w) = false)
    by (unfold unmount; rewrite Hm; reflexivity).
  destruct (dead_run acts (unmount w) Hm' (unmount_own w Hr))
    as (H1 & H2 & H3 & _).
  split; [|auto].
  apply emitted_app. unfold unmount. rewrite Hm. simpl.
  apply effect_cleanup_calls.
Qed.

(** *** Two releases in a row *)



End Engine.

(** ** The further properties on the small page *)

Lemma autoClose_false_ignores_events_witness :
  (attached (shown_world (ac_bool false))
   /\ autoClose (render_props (effect_owner (shown_world (ac_bool false))))
      = ac_bool false)
  /\ dispatchEvent page_contains page_isRTL (MouseUp 5)
       (shown_world (ac_bool false)) = shown_world (ac_bool false).
Proof.
  split; [split; reflexivity|].
  apply (autoClose_false_ignores_events page_contains page_isRTL
           (shown_world (ac_bool false)) (MouseUp 5)); reflexivity.
Defined.

Lemma inside_release_closes_witness :
  (mounted (shown_world ac_inside) = true
   /\ dropdownToggleRef (shown_world ac_inside) = Some 1
   /\ dropdownMenuRef (shown_world ac_inside) = Some 2)
  /\ state_visible
       (fireTimeout page_isRTL
          (handleMouseUp page_contains (effect_owner (shown_world ac_inside))
             (MouseUp 12) (shown_world ac_inside))) = false
  /\ handleMouseUp page_contains (effect_owner (shown_world ac_inside))
       (MouseUp 5) (shown_world ac_inside) = shown_world ac_inside.
Proof.
  split; [repeat split|].
  destruct (inside_release_closes page_contains page_isRTL
              (shown_world ac_inside) (effect_owner (shown_world ac_inside))
              1 2 12 eq_refl eq_refl eq_refl) as [Hin _].
  destruct (inside_release_closes page_contains page_isRTL
              (shown_world ac_inside) (effect_owner (shown_world ac_inside))
              1 2 5 eq_refl eq_refl eq_refl) as [_ Hout].
  split.
  - apply Hin; [left|..]; reflexivity.
  - apply Hout; reflexivity.
Defined.

Lemma other_keys_ignored_witness :
  reachable page_contains page_isRTL (shown_world (ac_bool true))
  /\ dispatchEvent page_contains page_isRTL (KeyUp "Enter" 0)
       (shown_world (ac_bool true)) = shown_world (ac_bool true).
Proof.
  assert (Hr : reachable page_contains page_isRTL (shown_world (ac_bool true)))
    by (apply reachable_mount; reflexivity).
  split; [exact Hr|].
  apply (other_keys_ignored page_contains page_isRTL
           (shown_world (ac_bool true)) "Enter" 0 Hr).
  discriminate.
Defined.

Lemma dismissal_runs_cleanup_once_witness :
  (reachable page_contains page_isRTL (shown_world (ac_bool true))
   /\ mounted (shown_world (ac_bool true)) = true
   /\ state_visible (shown_world (ac_bool true)) = true
   /\ attached (shown_world (ac_bool true)))
  /\ emitted (shown_world (ac_bool true))
       (dispatchEvent page_contains page_isRTL (KeyUp "Escape" 0)
          (shown_world (ac_bool true)))
     = [onHide_call; destroyPopper].
Proof.
  assert (Hr : reachable page_contains page_isRTL (shown_world (ac_bool true)))
    by (apply reachable_mount; reflexivity).
  split; [split; [exact Hr | repeat split]|].
  destruct (dismissal_runs_cleanup_once page_contains page_isRTL
              (shown_world (ac_bool true)) 0 Hr eq_refl eq_refl)
    as [Hkey _].
  destruct Hkey as (_ & _ & Hcalls); [reflexivity | discriminate|].
  exact Hcalls.
Defined.

Lemma rerender_keeps_handlers_witness :
  (reachable page_contains page_isRTL (shown_world (ac_bool false))
   /\ mounted (shown_world (ac_bool false)) = true
   /\ visible (props_autoClose (ac_bool true))
      = visible (render_props (current (shown_world (ac_bool false))))
   /\ attached (shown_world (ac_bool false)))
  /\ autoClose
       (render_props
          (current
             (setProps page_isRTL (props_autoClose (ac_bool true))
                (shown_world (ac_bool false))))) = ac_bool true
  /\ state_visible
       (dispatchEvent page_contains page_isRTL (KeyUp "Escape" 0)
          (setProps page_isRTL (props_autoClose (ac_bool true))
             (shown_world (ac_bool false)))) = true.
Proof.
  assert (Hr : reachable page_contains page_isRTL (shown_world (ac_bool false)))
    by (apply reachable_mount; reflexivity).
  split; [split; [exact Hr | repeat split]|].
  destruct (rerender_keeps_handlers page_contains page_isRTL
              (shown_world (ac_bool false)) (props_autoClose (ac_bool true))
              Hr eq_refl eq_refl) as [(_ & _ & _ & Hprops) Hstale].
  split; [rewrite Hprops; reflexivity|].
  destruct (Hstale eq_refl "Escape"%string 0) as [-> _]. reflexivity.
Defined.

Lemma show_starts_engine_once_witness :
  (reachable page_contains menu_isRTL
     (mount menu_isRTL plain_props (Some 1) (Some 2) [])
   /\ popper (render_props
                (current (mount menu_isRTL plain_props (Some 1) (Some 2) [])))
      = true)
  /\ In (initPopper 1 2
           {| modifiers_offset := (0%Z, 2%Z); config_placement := p_top_end |})
        (emitted (mount menu_isRTL plain_props (Some 1) (Some 2) [])
           (setVisible menu_isRTL true
              (mount menu_isRTL plain_props (Some 1) (Some 2) []))).
Proof.
  assert (Hr : reachable page_contains menu_isRTL
                 (mount menu_isRTL plain_props (Some 1) (Some 2) []))
    by (apply reachable_mount; reflexivity).
  split; [split; [exact Hr | reflexivity]|].
  apply (show_starts_engine_once page_contains menu_isRTL
           (mount menu_isRTL plain_props (Some 1) (Some 2) []) 1 2 Hr
           eq_refl eq_refl eq_refl eq_refl eq_refl).
Defined.

Lemma mount_shown_calls_witness :
  visible (with_visible true plain_props) = true
  /\ calls (mount menu_isRTL (with_visible true plain_props)
              (Some 1) (Some 2) [])
     = [onShow_call;
        initPopper 1 2
          {| modifiers_offset := (0%Z, 2%Z);
             config_placement := p_top_start |}].
Proof.
  split; [reflexivity|].
  apply (mount_shown_calls menu_isRTL (with_visible true plain_props) 1 2 []).
  reflexivity.
Defined.

Lemma engine_started_and_destroyed_witness :
  reachable page_contains page_isRTL
    (step page_contains page_isRTL Unmount
       (step page_contains page_isRTL (SetVisible true) hidden_world))
  /\ engine_running
       (calls
          (step page_contains page_isRTL Unmount
             (step page_contains page_isRTL (SetVisible true) hidden_world)))
     = false.
Proof.
  assert (Hr : reachable page_contains page_isRTL
                 (step page_contains page_isRTL Unmount
                    (step page_contains page_isRTL (SetVisible true)
                       hidden_world))).
  { apply reachable_step, reachable_step, reachable_mount. reflexivity. }
  split; [exact Hr|].
  apply (engine_started_and_destroyed page_contains page_isRTL _ Hr).
  right. reflexivity.
Defined.

Lemma mount_silent_witness :
  calls toggleless_world = []
  /\ window_listeners toggleless_world = [(mouseup, foreign 7)]
  /\ state_visible toggleless_world = visible plain_props.
Proof.
  apply (mount_silent page_isRTL plain_props None (Some 2)
           [(mouseup, foreign 7)]).
  right. left. reflexivity.
Defined.

Lemma late_elements_get_no_listeners_witness :
  (reachable page_contains page_isRTL toggleless_world
   /\ mounted toggleless_world = true
   /\ state_visible toggleless_world = false
   /\ dropdownToggleRef toggleless_world = None)
  /\ own_listeners
       (step page_contains page_isRTL (SetRefs (Some 1) (Some 2))
          (setVisible page_isRTL true toggleless_world)) = [].
Proof.
  assert (Hr : reachable page_contains page_isRTL toggleless_world)
    by (apply reachable_mount; reflexivity).
  split; [split; [exact Hr | repeat split]|].
  apply (late_elements_get_no_listeners page_contains page_isRTL
           toggleless_world (Some 1) (Some 2) (KeyUp "Escape" 0) Hr
           eq_refl eq_refl (or_introl eq_refl)).
Defined.

Lemma unmount_is_final_witness :
  (reachable page_contains page_isRTL hidden_world
   /\ mounted hidden_world = true)
  /\ emitted hidden_world (unmount hidden_world)
     = [onHide_call; destroyPopper]
  /\ calls
       (run page_contains page_isRTL
          [FireTimeout; Dispatch (MouseUp 5); SetVisible true]
          (unmount hidden_world))
     = calls (unmount hidden_world).
Proof.
  assert (Hr : reachable page_contains page_isRTL hidden_world)
    by (apply reachable_mount; reflexivity).
  split; [split; [exact Hr | reflexivity]|].
  destruct (unmount_is_final page_contains page_isRTL hidden_world
              [FireTimeout; Dispatch (MouseUp 5); SetVisible true]
              Hr eq_refl) as (H1 & _ & H3 & _).
  split; [exact H1 | exact H3].
Defined.

